(** * BAssist: the conversational session logic of the chat pages and the
      chat-history context

    A shallow embedding of

    - the chat-history context provider ([ChatHistoryProvider]: hydration,
      [addHistory], [deleteHistory], [clearHistory], [loadHistory]),
    - [handleSend] / [handleCancel] / [handleLoadHistory] of the chat page
      ([src/app/chat/page.tsx]),
    - [handleSend] / [handleCancel] of the study-buddy page
      ([src/app/study-buddy/page.tsx]),

    followed by the properties of the specification that concern them.

    Modelling conventions.

    - A JavaScript string is a [string]; one [ascii] stands for one UTF-16
      code unit, so [String.length] is [.length] and [substring 0 n] is
      [.substring(0, n)].  Literals of the source that contain Vietnamese
      letters are written as they are in the source; no property below
      depends on the length of such a literal.
    - [Record<string, ChatHistory[]>] is a [gmap string (list ChatHistory)];
      [prev[feature] || []] is [default [] (prev !! feature)] and
      [{...prev, [feature]: l}] is [<[feature := l]> prev].
    - [Date.now()] is an input: each call of the source is one clock reading
      passed as an argument.
    - React state is passed explicitly.  A call [setX(v)] is the update of
      field [X]; the asynchronous [handleSend] is split at its only
      suspension point (the awaited [fetch]) into the part that runs before
      it and the part that runs once the request has settled.  The second
      part reads [messages], [input] and [updatedMessages] from the closure
      created by the first. *)

From stdpp Require Import gmap strings list pretty.
From Stdlib Require Import ZArith Lia.

(** ** JavaScript values used by the pages *)

Module Js.

(** Truthiness of a string: only the empty string is falsy. *)
Definition truthy (s : string) : bool :=
  match s with
  | EmptyString => false
  | String _ _ => true
  end.

(** Truthiness of a property that may be absent ([undefined]). *)
Definition truthy_prop (v : option string) : bool :=
  match v with
  | Some s => truthy s
  | None => false
  end.

(** [a || b] on properties that may be absent. *)
Definition or (a b : option string) : option string :=
  if truthy_prop a then a else b.

(** [v || d] where [d] is a string literal. *)
Definition or_lit (v : option string) (d : string) : string :=
  match v with
  | Some s => if truthy s then s else d
  | None => d
  end.

(** White space removed by [String.prototype.trim], among the code units
    below 256: TAB, LF, VT, FF, CR, SP and NBSP. *)
Definition is_white (c : Ascii.ascii) : bool :=
  match Ascii.nat_of_ascii c with
  | 9 | 10 | 11 | 12 | 13 | 32 | 160 => true
  | _ => false
  end.

Fixpoint trim_start (s : string) : string :=
  match s with
  | EmptyString => EmptyString
  | String c s' => if is_white c then trim_start s' else s
  end.

Definition trim (s : string) : string :=
  String.rev (trim_start (String.rev (trim_start s))).

(** [Array.prototype.slice(0, n)]. *)
Definition slice0 {A} (n : nat) (l : list A) : list A := take n l.

(** A thrown value: the two properties the pages read. *)
Record Exn := { name : string; message : string }.

(** Code that may throw. *)
Inductive Result (A : Type) :=
| Ok (a : A)
| Throw (e : Exn).
Arguments Ok {A} a.
Arguments Throw {A} e.

Definition bind {A B} (r : Result A) (k : A → Result B) : Result B :=
  match r with
  | Ok a => k a
  | Throw e => Throw e
  end.

(** [try { body } catch (err) { handler }] for a handler that does not
    throw. *)
Definition try_catch {A} (body : Result A) (handler : Exn → A) : A :=
  match body with
  | Ok a => a
  | Throw e => handler e
  end.

(** [l.filter((_, i) => p(i))]: [Array.prototype.filter] with a predicate
    that reads the index only. *)
Fixpoint filter_index_from {A} (p : nat → bool) (i : nat) (l : list A)
    : list A :=
  match l with
  | [] => []
  | x :: l' =>
      if p i then x :: filter_index_from p (S i) l'
      else filter_index_from p (S i) l'
  end.

Definition filter_index {A} (p : nat → bool) (l : list A) : list A :=
  filter_index_from p 0 l.

End Js.

(** ** Messages *)

Inductive Role := user | assistant.

Global Instance Role_eq_dec : EqDecision Role.
Proof. solve_decision. Defined.

Record Message := { role : Role; content : string }.

(** ** The chat-history context ([ChatHistoryContext]) *)

Module History.

Record ChatHistory := {
  id : string;
  feature : string;
  title : string;
  timestamp : Z;
  preview : string;
  messages : list Message
}.

Abbreviation Histories := (gmap string (list ChatHistory)).

(** [prev[feature] || []]. *)
Definition sessions (feature : string) (h : Histories) : list ChatHistory :=
  default [] (h !! feature).

(** The part of [addHistory] that runs before [setHistories]: the two
    early returns ([None]) and the construction of [newHistory].
    [nowId] and [nowTs] are the readings of the two [Date.now()] calls. *)
Definition newHistory (nowId nowTs : Z) (feature : string)
    (messages : list Message) : option ChatHistory :=
  if (length messages =? 0)%nat then None else
  let userMessages := filter (λ m, role m = user) messages in
  match userMessages with
  | [] => None
  | m0 :: _ =>
      let firstUserMessage := content m0 in
      let preview :=
        String.substring 0 50 firstUserMessage +:+
        (if (50 <? String.length firstUserMessage)%nat then "..." else "") in
      let title := String.substring 0 30 firstUserMessage in
      Some {| id := pretty nowId;
              feature := feature;
              title := title;
              timestamp := nowTs;
              preview := preview;
              messages := messages |}
  end.

(** [addHistory]: [None] when it returns without calling [setHistories],
    otherwise the updater passed to [setHistories]. *)
Definition addHistory (nowId nowTs : Z) (feature : string)
    (messages : list Message) : option (Histories → Histories) :=
  match newHistory nowId nowTs feature messages with
  | None => None
  | Some newHistory =>
      Some (λ prev,
        let featureHistories := sessions feature prev in
        <[feature := Js.slice0 20 (newHistory :: featureHistories)]> prev)
  end.

(** [deleteHistory]: the updater passed to [setHistories]. *)
Definition deleteHistory (feature : string) (id0 : string)
    : Histories → Histories :=
  λ prev,
    <[feature := filter (λ h, id h ≠ id0) (sessions feature prev)]> prev.

(** [clearHistory]: the updater passed to [setHistories]. *)
Definition clearHistory (feature : string) : Histories → Histories :=
  λ prev, <[feature := []]> prev.

(** [loadHistory]: [Array.prototype.find], [None] for [null]. *)
Definition loadHistory (histories : Histories) (feature : string)
    (id0 : string) : option ChatHistory :=
  head (filter (λ h, id h = id0) (sessions feature histories)).

(** [setHistories(u)] for an updater that may not have been produced. *)
Definition setHistories (u : option (Histories → Histories))
    (h : Histories) : Histories :=
  match u with
  | Some f => f h
  | None => h
  end.

(** One call of [addHistory] together with its clock readings. *)
Record AddCall := {
  call_nowId : Z;
  call_nowTs : Z;
  call_feature : string;
  call_messages : list Message
}.

Definition created (c : AddCall) : option ChatHistory :=
  newHistory (call_nowId c) (call_nowTs c) (call_feature c) (call_messages c).

Definition step (h : Histories) (c : AddCall) : Histories :=
  setHistories
    (addHistory (call_nowId c) (call_nowTs c) (call_feature c)
       (call_messages c)) h.

(** The store after a sequence of [addHistory] calls, oldest call first. *)
Definition run (calls : list AddCall) (h : Histories) : Histories :=
  foldl step h calls.

(** The records that a sequence of calls creates for [feature], in call
    order. *)
Definition created_for (feature : string) (calls : list AddCall)
    : list ChatHistory :=
  omap (λ c, if decide (call_feature c = feature) then created c else None)
    calls.

(** One mutation of the store, as the context exposes them. *)
Inductive Op :=
| Add (c : AddCall)
| Delete (feature : string) (id0 : string)
| Clear (feature : string).

Definition apply (h : Histories) (o : Op) : Histories :=
  match o with
  | Add c => step h c
  | Delete f id0 => deleteHistory f id0 h
  | Clear f => clearHistory f h
  end.

(** The store after a sequence of mutations, oldest first. *)
Definition run_ops (ops : list Op) (h : Histories) : Histories :=
  foldl apply h ops.

End History.

(** ** Hydration of the provider (the mount effect of [ChatHistoryProvider]) *)

Module Provider.

Import History.

(** The provider's state, and what [console.error] has received. *)
Record State := {
  histories : Histories;
  isHydrated : bool;
  console : list Js.Exn
}.

(** [useState({})] and [useState(false)]. *)
Definition initial : State :=
  {| histories := ∅; isHydrated := false; console := [] |}.

Definition setHistories (h : Histories) (s : State) : State :=
  {| histories := h; isHydrated := isHydrated s; console := console s |}.

Definition setIsHydrated (b : bool) (s : State) : State :=
  {| histories := histories s; isHydrated := b; console := console s |}.

Definition console_error (e : Js.Exn) (s : State) : State :=
  {| histories := histories s; isHydrated := isHydrated s;
     console := console s ++ [e] |}.

Section Mount.

(** [JSON.parse] restricted to the declared type of the state: the
    parsed mapping, or the [SyntaxError] it throws. *)
Variable JSON_parse : string → Js.Result Histories.

(** The effect that runs once on mount.  [stored] is the value of
    [localStorage.getItem("chatHistories")]: [None] for [null]. *)
Definition mount (stored : option string) (s : State) : Js.Result State :=
  let s1 :=
    match stored with
    | Some blob =>
        if Js.truthy blob then
          Js.try_catch
            (Js.bind (JSON_parse blob) (λ h, Js.Ok (setHistories h s)))
            (λ err, console_error err s)
        else s
    | None => s
    end in
  Js.Ok (setIsHydrated true s1).

End Mount.

Section Save.

(** [JSON.stringify] on the state. *)
Variable JSON_stringify : Histories → string.

(** The effect that saves the state: it runs after a render whose state is
    [s] and yields the value of the [chatHistories] item, given its value
    [storage] before. *)
Definition save (s : State) (storage : option string) : option string :=
  if isHydrated s then Some (JSON_stringify (histories s)) else storage.

End Save.

End Provider.

(** ** Browser objects shared by the pages *)

(** An uploaded [File]; only its identity matters here. *)
Record File := { file_name : string }.

Record AbortController := { aborted : bool }.

(** [abortControllerRef.current.abort()]. *)
Definition abort (c : AbortController) : AbortController :=
  {| aborted := true |}.

(** The [DOMException] with which an aborted [fetch] rejects. *)
Definition AbortError : Js.Exn :=
  {| Js.name := "AbortError"; Js.message := "The user aborted a request." |}.

(** One invocation of the context's [addHistory] by a page. *)
Record HistoryCall := {
  hc_feature : string;
  hc_messages : list Message
}.

(** ** The chat page ([src/app/chat/page.tsx]) *)

Module Chat.

Record State := {
  messages : list Message;
  input : string;
  loading : bool;
  error : string;
  advancedMode : bool;
  files : list File;
  selectedKb : string;
  abortControllerRef : option AbortController
}.

Definition setMessages (v : list Message) (s : State) : State :=
  {| messages := v; input := input s; loading := loading s;
     error := error s; advancedMode := advancedMode s; files := files s;
     selectedKb := selectedKb s;
     abortControllerRef := abortControllerRef s |}.

Definition setInput (v : string) (s : State) : State :=
  {| messages := messages s; input := v; loading := loading s;
     error := error s; advancedMode := advancedMode s; files := files s;
     selectedKb := selectedKb s;
     abortControllerRef := abortControllerRef s |}.

Definition setLoading (v : bool) (s : State) : State :=
  {| messages := messages s; input := input s; loading := v;
     error := error s; advancedMode := advancedMode s; files := files s;
     selectedKb := selectedKb s;
     abortControllerRef := abortControllerRef s |}.

Definition setError (v : string) (s : State) : State :=
  {| messages := messages s; input := input s; loading := loading s;
     error := v; advancedMode := advancedMode s; files := files s;
     selectedKb := selectedKb s;
     abortControllerRef := abortControllerRef s |}.

Definition setFiles (v : list File) (s : State) : State :=
  {| messages := messages s; input := input s; loading := loading s;
     error := error s; advancedMode := advancedMode s; files := v;
     selectedKb := selectedKb s;
     abortControllerRef := abortControllerRef s |}.

Definition setAbortController (v : option AbortController) (s : State)
    : State :=
  {| messages := messages s; input := input s; loading := loading s;
     error := error s; advancedMode := advancedMode s; files := files s;
     selectedKb := selectedKb s; abortControllerRef := v |}.

(** The JSON document of the ["request"] part. *)
Record Request := {
  text : string;
  history : list Message;
  knowledge_base : option string
}.

(** The parts appended to the [FormData], in order. *)
Inductive FormPart :=
| FilePart (f : File)
| RequestPart (r : Request).

(** The body of the response, as far as the page reads it. *)
Record Data := {
  data_success : bool;
  data_response : string;
  data_detail : option string;
  data_error : option string
}.

(** How the awaited request settles: [fetch] rejects, or it resolves with
    a response whose [ok] flag is given and whose [json()] yields the body
    or throws. *)
Inductive Settled :=
| FetchRejected (e : Js.Exn)
| Fetched (ok : bool) (json : Js.Result Data).

(** The variables of [handleSend] that are live after the [await]. *)
Record Closure := {
  c_messages : list Message;
  c_input : string;
  c_updatedMessages : list Message
}.

(** Where [handleSend] stands when it first yields control. *)
Inductive Started :=
| Invalid (s : State)
| Pending (s : State) (k : Closure) (formData : list FormPart).

Definition MSG_EMPTY : string := "Vui lòng nhập tin nhắn hoặc tải lên tệp".
Definition MSG_SEND_FAILED : string := "Không thể gửi tin nhắn".
Definition MSG_CANCELED : string := "Đã hủy yêu cầu".
Definition MSG_GENERIC : string := "Có lỗi xảy ra. Vui lòng thử lại.".

(** The template literal of the user message when files are attached. *)
Definition attachment_content (n : nat) (input : string) : string :=
  "[" +:+ pretty n +:+ " tệp đính kèm] " +:+ input.

(** The [userMessage] of [handleSend]. *)
Definition userMessage (s : State) : Message :=
  {| role := user;
     content := if (0 <? length (files s))%nat
                then attachment_content (length (files s)) (input s)
                else input s |}.

(** [handleSend] up to the awaited [fetch]. *)
Definition handleSend_start (s : State) : Started :=
  if negb (Js.truthy (Js.trim (input s))) && (length (files s) =? 0)%nat
  then Invalid (setError MSG_EMPTY s)
  else
    let userMessage := userMessage s in
    let updatedMessages := messages s ++ [userMessage] in
    let currentFiles := files s in
    let s1 := setMessages updatedMessages s in
    let s2 := setInput "" s1 in
    let s3 := setFiles [] s2 in
    let s4 := setLoading true s3 in
    let s5 := setError "" s4 in
    let s6 := setAbortController (Some {| aborted := false |}) s5 in
    let formData :=
      (if advancedMode s && (0 <? length currentFiles)%nat
       then map FilePart currentFiles else [])
      ++ [RequestPart
            {| text := input s;
               history := messages s;
               knowledge_base :=
                 if Js.truthy (selectedKb s) then Some (selectedKb s)
                 else None |}] in
    Pending s6
      {| c_messages := messages s; c_input := input s;
         c_updatedMessages := updatedMessages |}
      formData.

(** [handleSend] from the point where the request has settled: the rest
    of the [try] block, the [catch] and the [finally]. *)
Definition handleSend_settled (k : Closure) (r : Settled) (s : State)
    : State * list HistoryCall :=
  let tried : Js.Result (State * list HistoryCall) :=
    Js.bind
      (match r with
       | FetchRejected e => Js.Throw e
       | Fetched ok json => Js.bind json (λ data, Js.Ok (ok, data))
       end)
      (λ '(ok, data),
         if negb ok || negb (data_success data) then
           let detail :=
             Js.or_lit (Js.or (data_detail data) (data_error data))
               MSG_SEND_FAILED in
           Js.Throw {| Js.name := "Error"; Js.message := detail |}
         else
           let assistantMessage :=
             {| role := assistant; content := data_response data |} in
           let newMessages := c_updatedMessages k ++ [assistantMessage] in
           Js.Ok (setMessages newMessages s,
                  [{| hc_feature := "chat"; hc_messages := newMessages |}]))
  in
  let '(s', calls) :=
    Js.try_catch tried
      (λ err,
         if String.eqb (Js.name err) "AbortError" then
           (setError MSG_CANCELED (setMessages (c_messages k) s), [])
         else
           let detail := Js.or_lit (Some (Js.message err)) MSG_GENERIC in
           (setError detail s, [])) in
  (setLoading false s', calls).

(** [handleCancel]. *)
Definition handleCancel (s : State) : State :=
  match abortControllerRef s with
  | Some c => setAbortController (Some (abort c)) s
  | None => s
  end.

(** [handleLoadHistory]. *)
Definition handleLoadHistory (msgs : list Message) (s : State) : State :=
  setMessages msgs s.

(** What the awaited request delivers: the rejection with [AbortError]
    once the controller's signal is aborted, otherwise what the network
    delivers. *)
Definition settle (s : State) (net : Settled) : Settled :=
  match abortControllerRef s with
  | Some c => if aborted c then FetchRejected AbortError else net
  | None => net
  end.

(** One complete [handleSend]: the synchronous part, [handleCancel] while
    the request is pending when [cancel] is set, then the settlement. *)
Definition submit (s : State) (cancel : bool) (net : Settled)
    : State * list HistoryCall :=
  match handleSend_start s with
  | Invalid s' => (s', [])
  | Pending s' k _ =>
      let s'' := if cancel then handleCancel s' else s' in
      handleSend_settled k (settle s'' net) s''
  end.

Definition setAdvancedMode (v : bool) (s : State) : State :=
  {| messages := messages s; input := input s; loading := loading s;
     error := error s; advancedMode := v; files := files s;
     selectedKb := selectedKb s;
     abortControllerRef := abortControllerRef s |}.

Definition setSelectedKb (v : string) (s : State) : State :=
  {| messages := messages s; input := input s; loading := loading s;
     error := error s; advancedMode := advancedMode s; files := files s;
     selectedKb := v; abortControllerRef := abortControllerRef s |}.

Definition MSG_TOO_MANY : string := "Tối đa 10 tệp".

(** [handleFileSelect]; [selectedFiles] is [Array.from(e.target.files || [])]. *)
Definition handleFileSelect (selectedFiles : list File) (s : State) : State :=
  if (10 <? length (files s) + length selectedFiles)%nat
  then setError MSG_TOO_MANY s
  else setFiles (files s ++ selectedFiles) s.

(** [removeFile]. *)
Definition removeFile (index : nat) (s : State) : State :=
  setFiles (Js.filter_index (λ i, negb (i =? index)%nat) (files s)) s.

(** What the user can do on the page: type in the text area, pick a
    knowledge base, toggle the advanced mode, pick files, remove a file,
    send (with or without a cancellation while the request is pending),
    press cancel, and load a stored transcript from the side bar. *)
Inductive Event :=
| Typed (txt : string)
| KbSelected (kb : string)
| AdvancedToggled
| FilesSelected (selectedFiles : list File)
| FileRemoved (index : nat)
| Sent (cancel : bool) (net : Settled)
| CancelPressed
| HistoryLoaded (msgs : list Message).

(** The state after an event, and the calls of [addHistory] it makes. *)
Definition react (s : State) (e : Event) : State * list HistoryCall :=
  match e with
  | Typed txt => (setInput txt s, [])
  | KbSelected kb => (setSelectedKb kb s, [])
  | AdvancedToggled => (setAdvancedMode (negb (advancedMode s)) s, [])
  | FilesSelected l => (handleFileSelect l s, [])
  | FileRemoved i => (removeFile i s, [])
  | Sent cancel net => submit s cancel net
  | CancelPressed => (handleCancel s, [])
  | HistoryLoaded msgs => (handleLoadHistory msgs s, [])
  end.

(** The state after a sequence of events, with all the calls of
    [addHistory] made on the way, oldest first. *)
Fixpoint run (events : list Event) (s : State) : State * list HistoryCall :=
  match events with
  | [] => (s, [])
  | e :: events' =>
      let '(s1, calls1) := react s e in
      let '(s2, calls2) := run events' s1 in
      (s2, calls1 ++ calls2)
  end.

(** The request part of the form, when there is one. *)
Definition request_of (formData : list FormPart) : option Request :=
  head (omap (λ p, match p with RequestPart r => Some r | _ => None end)
          formData).

(** The files of the form. *)
Definition files_of (formData : list FormPart) : list File :=
  omap (λ p, match p with FilePart f => Some f | _ => None end) formData.

End Chat.

(** ** The study-buddy page ([src/app/study-buddy/page.tsx]) *)

Module StudyBuddy.

Record State := {
  messages : list Message;
  input : string;
  files : list File;
  loading : bool;
  error : string;
  selectedKb : string;
  abortControllerRef : option AbortController
}.

Definition setMessages (v : list Message) (s : State) : State :=
  {| messages := v; input := input s; files := files s;
     loading := loading s; error := error s; selectedKb := selectedKb s;
     abortControllerRef := abortControllerRef s |}.

Definition setInput (v : string) (s : State) : State :=
  {| messages := messages s; input := v; files := files s;
     loading := loading s; error := error s; selectedKb := selectedKb s;
     abortControllerRef := abortControllerRef s |}.

Definition setFiles (v : list File) (s : State) : State :=
  {| messages := messages s; input := input s; files := v;
     loading := loading s; error := error s; selectedKb := selectedKb s;
     abortControllerRef := abortControllerRef s |}.

Definition setLoading (v : bool) (s : State) : State :=
  {| messages := messages s; input := input s; files := files s;
     loading := v; error := error s; selectedKb := selectedKb s;
     abortControllerRef := abortControllerRef s |}.

Definition setError (v : string) (s : State) : State :=
  {| messages := messages s; input := input s; files := files s;
     loading := loading s; error := v; selectedKb := selectedKb s;
     abortControllerRef := abortControllerRef s |}.

Definition setAbortController (v : option AbortController) (s : State)
    : State :=
  {| messages := messages s; input := input s; files := files s;
     loading := loading s; error := error s; selectedKb := selectedKb s;
     abortControllerRef := v |}.

(** The JSON document of the ["request"] part. *)
Record Request := {
  text : string;
  knowledge_base : option string
}.

Inductive FormPart :=
| FilePart (f : File)
| RequestPart (r : Request).

Record Data := { data_summary : string }.

Inductive Settled :=
| FetchRejected (e : Js.Exn)
| Fetched (ok : bool) (json : Js.Result Data).

Record Closure := {
  c_messages : list Message;
  c_updatedMessages : list Message
}.

Inductive Started :=
| Invalid (s : State)
| Pending (s : State) (k : Closure) (formData : list FormPart).

Definition MSG_EMPTY : string := "Vui lòng nhập văn bản hoặc tải lên tệp".
Definition MSG_SUMMARY_FAILED : string := "Không thể tạo tóm tắt".
Definition MSG_CANCELED : string := "Đã hủy yêu cầu".
Definition MSG_GENERIC : string := "Có lỗi xảy ra. Vui lòng thử lại.".

(** The template literal of the user message when files are attached. *)
Definition attachment_content (n : nat) : string :=
  "[" +:+ pretty n +:+ " tệp đính kèm]".

(** The [userMessage] of [handleSend]. *)
Definition userMessage (s : State) : Message :=
  {| role := user;
     content := if (0 <? length (files s))%nat
                then attachment_content (length (files s))
                else input s |}.

(** [handleSend] up to the awaited [fetch]. *)
Definition handleSend_start (s : State) : Started :=
  if negb (Js.truthy (Js.trim (input s))) && (length (files s) =? 0)%nat
  then Invalid (setError MSG_EMPTY s)
  else
    let userMessage := userMessage s in
    let updatedMessages := messages s ++ [userMessage] in
    let s1 := setMessages updatedMessages s in
    let currentInput := input s in
    let currentFiles := files s in
    let s2 := setInput "" s1 in
    let s3 := setFiles [] s2 in
    let s4 := setLoading true s3 in
    let s5 := setError "" s4 in
    let s6 := setAbortController (Some {| aborted := false |}) s5 in
    let formData :=
      if (0 <? length currentFiles)%nat then map FilePart currentFiles
      else if Js.truthy (Js.trim currentInput) then
        [RequestPart
           {| text := currentInput;
              knowledge_base :=
                if Js.truthy (selectedKb s) then Some (selectedKb s)
                else None |}]
      else [] in
    Pending s6
      {| c_messages := messages s; c_updatedMessages := updatedMessages |}
      formData.

(** [handleSend] from the point where the request has settled. *)
Definition handleSend_settled (k : Closure) (r : Settled) (s : State)
    : State * list HistoryCall :=
  let tried : Js.Result (State * list HistoryCall) :=
    Js.bind
      (match r with
       | FetchRejected e => Js.Throw e
       | Fetched ok json =>
           if negb ok then
             Js.Throw {| Js.name := "Error";
                         Js.message := MSG_SUMMARY_FAILED |}
           else json
       end)
      (λ data,
         let assistantMessage :=
           {| role := assistant; content := data_summary data |} in
         let newMessages := c_updatedMessages k ++ [assistantMessage] in
         Js.Ok (setMessages newMessages s,
                [{| hc_feature := "study-buddy";
                    hc_messages := newMessages |}]))
  in
  let '(s', calls) :=
    Js.try_catch tried
      (λ err,
         if String.eqb (Js.name err) "AbortError" then
           (setError MSG_CANCELED (setMessages (c_messages k) s), [])
         else (setError MSG_GENERIC s, [])) in
  (setLoading false s', calls).

(** [handleCancel]. *)
Definition handleCancel (s : State) : State :=
  match abortControllerRef s with
  | Some c => setAbortController (Some (abort c)) s
  | None => s
  end.

(** The [onChange] handler of the file input; [newFile] is
    [e.target.files?.[0]]. *)
Definition addFile (newFile : option File) (s : State) : State :=
  match newFile with
  | Some f =>
      if (length (files s) <? 10)%nat then setFiles (files s ++ [f]) s
      else s
  | None => s
  end.

(** [removeFile]. *)
Definition removeFile (index : nat) (s : State) : State :=
  setFiles (Js.filter_index (λ i, negb (i =? index)%nat) (files s)) s.

(** [handleLoadHistory]. *)
Definition handleLoadHistory (msgs : list Message) (s : State) : State :=
  setMessages msgs s.

(** What the awaited request delivers: the rejection with [AbortError]
    once the controller's signal is aborted, otherwise what the network
    delivers. *)
Definition settle (s : State) (net : Settled) : Settled :=
  match abortControllerRef s with
  | Some c => if aborted c then FetchRejected AbortError else net
  | None => net
  end.

(** One complete [handleSend]: the synchronous part, [handleCancel] while
    the request is pending when [cancel] is set, then the settlement. *)
Definition submit (s : State) (cancel : bool) (net : Settled)
    : State * list HistoryCall :=
  match handleSend_start s with
  | Invalid s' => (s', [])
  | Pending s' k _ =>
      let s'' := if cancel then handleCancel s' else s' in
      handleSend_settled k (settle s'' net) s''
  end.

End StudyBuddy.

(** ** The theme context ([ThemeContext]) *)

Module Theme.

Record State := { isDark : bool; mounted : bool }.

(** What the provider reads and writes outside its state: the [theme] item
    of the local storage, whether the document element has the class
    [dark], and whether the system prefers a dark colour scheme. *)
Record Env := {
  theme_item : option string;
  dark_class : bool;
  prefers_dark : bool
}.

(** [useState(false)] twice. *)
Definition initial : State := {| isDark := false; mounted := false |}.

(** The common tail of the mount effect and of [toggleDarkMode]: add or
    remove the class and store the theme. *)
Definition apply_theme (dark : bool) (env : Env) : Env :=
  if dark
  then {| theme_item := Some "dark"; dark_class := true;
          prefers_dark := prefers_dark env |}
  else {| theme_item := Some "light"; dark_class := false;
          prefers_dark := prefers_dark env |}.

(** The effect that runs once on mount. *)
Definition mount (s : State) (env : Env) : State * Env :=
  let savedTheme := theme_item env in
  let shouldBeDark :=
    match savedTheme with
    | Some t => if Js.truthy t then String.eqb t "dark" else prefers_dark env
    | None => prefers_dark env
    end in
  ({| isDark := shouldBeDark; mounted := true |}, apply_theme shouldBeDark env).

(** [toggleDarkMode]. *)
Definition toggleDarkMode (s : State) (env : Env) : State * Env :=
  let newState := negb (isDark s) in
  ({| isDark := newState; mounted := mounted s |}, apply_theme newState env).

End Theme.

(** ** The history side bar ([RightSidebar]) *)

Module RightSidebar.

Import History.

Definition featureMap : gmap string string :=
  list_to_map
    [("/chat", "chat");
     ("/study-buddy", "study-buddy");
     ("/polisher", "polisher");
     ("/personal-doctor", "personal-doctor");
     ("/fact-check", "fact-check");
     ("/knowledge-bases", "knowledge-bases")].

(** [featureMap[pathname]]. *)
Definition currentFeature (pathname : string) : option string :=
  featureMap !! pathname.

(** [currentFeature ? histories[currentFeature] || [] : []]. *)
Definition currentHistories (pathname : string) (histories : Histories)
    : list ChatHistory :=
  match currentFeature pathname with
  | Some f => if Js.truthy f then sessions f histories else []
  | None => []
  end.

(** What the component shows: [None] where it returns [null], otherwise
    the feature whose buttons it wires and the records it lists. *)
Definition render (isHydrated : bool) (pathname : string)
    (histories : Histories) : option (string * list ChatHistory) :=
  if negb isHydrated then None
  else
    match currentFeature pathname with
    | Some f =>
        if negb (Js.truthy f) || String.eqb f "home" || String.eqb pathname "/"
        then None
        else Some (f, currentHistories pathname histories)
    | None => None
    end.

(** The "delete" button of a listed record. *)
Definition delete_clicked (currentFeature : string) (history : ChatHistory)
    : Histories → Histories :=
  deleteHistory currentFeature (id history).

(** The "clear all" button, shown when the list is not empty. *)
Definition clear_clicked (currentFeature : string) : Histories → Histories :=
  clearHistory currentFeature.

(** [handleLoadHistory]: the messages passed to [onLoadHistory], when the
    page gave one. *)
Definition handleLoadHistory {S} (onLoadHistory : option (list Message → S → S))
    (msgs : list Message) (page : S) : S :=
  match onLoadHistory with
  | Some f => f msgs page
  | None => page
  end.

End RightSidebar.

(** ** Vocabulary of the properties *)

(** [p] is the first [n] characters of [s] (all of [s] when it is
    shorter). *)
Definition first_chars (n : nat) (s p : string) : Prop :=
  String.length p = Nat.min n (String.length s) ∧ ∃ rest, s = p +:+ rest.

(** A transcript without any USER turn. *)
Definition no_user_turn (msgs : list Message) : Prop :=
  Forall (λ m, role m ≠ user) msgs.

(** [m0] is the first USER turn of [msgs]. *)
Definition first_user_turn (msgs : list Message) (m0 : Message) : Prop :=
  ∃ pre post, msgs = pre ++ m0 :: post ∧ no_user_turn pre ∧ role m0 = user.

(** Vocabulary for one submission on the chat page. *)
Module ChatSpec.

Import Chat.

(** The submission passes the guard at the head of [handleSend]: the
    input has a character that is not white space, or a file is
    attached. *)
Definition valid (s : State) : Prop :=
  Js.trim (input s) ≠ "" ∨ files s ≠ [].

(** The request settles with a successful response that carries
    [data]. *)
Definition success (net : Settled) (data : Data) : Prop :=
  net = Fetched true (Js.Ok data) ∧ data_success data = true.

(** The request fails without having been canceled: a response that is
    not [ok], a body with [success] false, a rejected [fetch], or a body
    that cannot be read. *)
Inductive failure : Settled → Prop :=
| failure_status data : failure (Fetched false (Js.Ok data))
| failure_payload ok data :
    data_success data = false → failure (Fetched ok (Js.Ok data))
| failure_transport e :
    Js.name e ≠ "AbortError" → failure (FetchRejected e)
| failure_body ok e :
    Js.name e ≠ "AbortError" → failure (Fetched ok (Js.Throw e)).

(** A property of the body that is absent or empty. *)
Definition blank (v : option string) : Prop := v = None ∨ v = Some "".

(** The message that a failure puts in [error]: the body's [detail],
    else the body's [error], else the literal of the [try] block; for a
    thrown error its own message, else the literal of the [catch]
    block. *)
Inductive failure_message : Settled → string → Prop :=
| fm_detail ok data d :
    data_detail data = Some d → d ≠ "" →
    failure_message (Fetched ok (Js.Ok data)) d
| fm_error ok data e :
    blank (data_detail data) → data_error data = Some e → e ≠ "" →
    failure_message (Fetched ok (Js.Ok data)) e
| fm_send_failed ok data :
    blank (data_detail data) → blank (data_error data) →
    failure_message (Fetched ok (Js.Ok data)) MSG_SEND_FAILED
| fm_rejected e :
    Js.message e ≠ "" → failure_message (FetchRejected e) (Js.message e)
| fm_rejected_silent e :
    Js.message e = "" → failure_message (FetchRejected e) MSG_GENERIC
| fm_body ok e :
    Js.message e ≠ "" →
    failure_message (Fetched ok (Js.Throw e)) (Js.message e)
| fm_body_silent ok e :
    Js.message e = "" →
    failure_message (Fetched ok (Js.Throw e)) MSG_GENERIC.

End ChatSpec.

(** The feature that a mutation of the store addresses. *)
Definition op_feature (o : History.Op) : string :=
  match o with
  | History.Add c => History.call_feature c
  | History.Delete f _ => f
  | History.Clear f => f
  end.

(** A record as [addHistory] files it under feature [f]: it names [f], its
    transcript has a USER turn, its title is the first 30 characters of the
    first USER turn and its preview starts with the first 50. *)
Definition well_formed (f : string) (r : History.ChatHistory) : Prop :=
  History.feature r = f
  ∧ ∃ m0,
      first_user_turn (History.messages r) m0
      ∧ first_chars 30 (content m0) (History.title r)
      ∧ ∃ p rest, first_chars 50 (content m0) p
                  ∧ History.preview r = p +:+ rest.

(** A transcript that ends with a USER turn and the ASSISTANT turn that
    answers it. *)
Definition ends_with_exchange (msgs : list Message) : Prop :=
  ∃ pre u a,
    msgs = pre ++ [u; a] ∧ role u = user ∧ role a = assistant.

(** Vocabulary for one submission on the study-buddy page. *)
Module StudySpec.

Import StudyBuddy.

(** The submission passes the guard at the head of [handleSend]. *)
Definition valid (s : State) : Prop :=
  Js.trim (input s) ≠ "" ∨ files s ≠ [].

(** The request fails without having been canceled: a response that is
    not [ok], a rejected [fetch], or a body that cannot be read. *)
Inductive failure : Settled → Prop :=
| failure_status json : failure (Fetched false json)
| failure_transport e :
    Js.name e ≠ "AbortError" → failure (FetchRejected e)
| failure_body e :
    Js.name e ≠ "AbortError" → failure (Fetched true (Js.Throw e)).

End StudySpec.

(** The theme that the storage and the document show agree with [dark]. *)
Definition theme_in_sync (dark : bool) (env : Theme.Env) : Prop :=
  Theme.theme_item env = Some (if dark then "dark" else "light")
  ∧ Theme.dark_class env = dark.

(** ** Concrete data used by the examples *)

Module Sample.

Definition greeting : Message :=
  {| role := assistant; content := "Hello, how can I help?" |}.

Definition question : Message := {| role := user; content := "hi" |}.

Definition answer : Message := {| role := assistant; content := "ok" |}.

(** A completed exchange, and a transcript without any USER turn. *)
Definition exchange : list Message := [greeting; question; answer].
Definition only_assistant : list Message := [greeting].

(** First user turns of 35 and of 60 characters. *)
Definition question35 : Message :=
  {| role := user; content := "abcdefghijklmnopqrstuvwxyz012345678" |}.

Definition question60 : Message :=
  {| role := user;
     content :=
       "abcdefghijklmnopqrstuvwxyz0123456789ABCDEFGHIJKLMNOPQRSTUVWX" |}.

(** A call of [addHistory] for the chat feature at clock reading [now]. *)
Definition call_at (now : Z) (msgs : list Message) : History.AddCall :=
  {| History.call_nowId := now; History.call_nowTs := now;
     History.call_feature := "chat"; History.call_messages := msgs |}.

(** A store whose chat list is full: twenty calls at successive clock
    readings. *)
Definition full_store : History.Histories :=
  History.run (map (λ n, call_at (Z.of_nat n) exchange) (seq 1 20)) ∅.

Definition pdf : File := {| file_name := "notes.pdf" |}.

(** The chat page at rest, with [txt] typed and [fs] attached. *)
Definition chat_idle (txt : string) (fs : list File) : Chat.State :=
  {| Chat.messages := [greeting]; Chat.input := txt;
     Chat.loading := false; Chat.error := ""; Chat.advancedMode := true;
     Chat.files := fs; Chat.selectedKb := "";
     Chat.abortControllerRef := None |}.

Definition chat_ok : Chat.Data :=
  {| Chat.data_success := true; Chat.data_response := "ok";
     Chat.data_detail := None; Chat.data_error := None |}.

Definition chat_refused : Chat.Data :=
  {| Chat.data_success := false; Chat.data_response := "";
     Chat.data_detail := Some "quota exceeded"; Chat.data_error := None |}.

(** A network failure, and the error of [response.json()] on a body that
    is not JSON. *)
Definition network_down : Js.Exn :=
  {| Js.name := "TypeError"; Js.message := "Failed to fetch" |}.

Definition not_json : Js.Exn :=
  {| Js.name := "SyntaxError";
     Js.message := "Unexpected token < in JSON at position 0" |}.

(** The study-buddy page at rest. *)
Definition study_idle (txt : string) (fs : list File) : StudyBuddy.State :=
  {| StudyBuddy.messages := [greeting]; StudyBuddy.input := txt;
     StudyBuddy.files := fs; StudyBuddy.loading := false;
     StudyBuddy.error := ""; StudyBuddy.selectedKb := "";
     StudyBuddy.abortControllerRef := None |}.

(** Two stand-ins for [JSON.parse]: one that rejects every blob, one that
    reads every blob as the full store. *)
Definition parse_fails (blob : string) : Js.Result History.Histories :=
  Js.Throw {| Js.name := "SyntaxError";
              Js.message := "Unexpected end of JSON input" |}.

Definition parse_full (blob : string) : Js.Result History.Histories :=
  Js.Ok full_store.

(** Stand-ins for [JSON.stringify] and [JSON.parse] on the empty store. *)
Definition stringify_empty (h : History.Histories) : string := "{}".



Definition study_summary : StudyBuddy.Data :=
  {| StudyBuddy.data_summary := "short" |}.

Definition light_env : Theme.Env :=
  {| Theme.theme_item := None; Theme.dark_class := false;
     Theme.prefers_dark := false |}.

End Sample.

(** * Properties of the chat-history context *)

Module HistoryProps.

Import History.

(** *** Strings *)

Lemma substring_0_length (n : nat) (s : string) :
  String.length (String.substring 0 n s) = Nat.min n (String.length s).
Proof.
  revert s. induction n as [|n IH]; intros [|c s]; simpl; auto.
Qed.

Lemma substring_0_prefix (n : nat) (s : string) :
  ∃ rest, s = String.substring 0 n s +:+ rest.
Proof.
  revert s. induction n as [|n IH]; intros [|c s]; simpl.
  - by exists "".
  - by exists (String c s).
  - by exists "".
  - destruct (IH s) as [rest Hrest]. exists rest.
    change (String c s = String c (String.substring 0 n s +:+ rest)).
    by f_equal.
Qed.

Lemma substring_0_first_chars (n : nat) (s : string) :
  first_chars n s (String.substring 0 n s).
Proof. split; [apply substring_0_length | apply substring_0_prefix]. Qed.

Lemma substring_0_all (n : nat) (s : string) :
  String.length s ≤ n → String.substring 0 n s = s.
Proof.
  revert s. induction n as [|n IH]; intros [|c s]; simpl; intros H;
    try done; try lia.
  f_equal. apply IH. lia.
Qed.

Lemma app_empty_r (s : string) : s +:+ "" = s.
Proof.
  induction s as [|c s IH]; [done|].
  change (String c (s +:+ "") = String c s). by rewrite IH.
Qed.

(** *** The early returns of [addHistory] *)

Lemma filter_no_user (msgs : list Message) :
  no_user_turn msgs → filter (λ m, role m = user) msgs = [].
Proof.
  induction 1 as [|m l Hm _ IH]; [done|].
  rewrite filter_cons. by destruct (decide (role m = user)).
Qed.

Lemma filter_first_user (msgs : list Message) (m0 : Message) :
  first_user_turn msgs m0 →
  ∃ rest, filter (λ m, role m = user) msgs = m0 :: rest.
Proof.
  intros (pre & post & -> & Hpre & Hm0).
  rewrite filter_app, (filter_no_user pre Hpre), filter_cons. simpl.
  destruct (decide (role m0 = user)); [eauto | done].
Qed.

Lemma newHistory_no_user nowId nowTs f msgs :
  no_user_turn msgs → newHistory nowId nowTs f msgs = None.
Proof.
  intros H. unfold newHistory.
  destruct (length msgs =? 0)%nat; [done|].
  by rewrite (filter_no_user msgs H).
Qed.

Lemma newHistory_first_user nowId nowTs f msgs m0 :
  first_user_turn msgs m0 →
  newHistory nowId nowTs f msgs =
    Some {| id := pretty nowId;
            feature := f;
            title := String.substring 0 30 (content m0);
            timestamp := nowTs;
            preview :=
              String.substring 0 50 (content m0) +:+
              (if (50 <? String.length (content m0))%nat then "..." else "");
            messages := msgs |}.
Proof.
  intros H. destruct (filter_first_user msgs m0 H) as [rest Hrest].
  unfold newHistory. rewrite Hrest.
  destruct H as (pre & post & -> & _ & _).
  rewrite length_app. simpl.
  by replace (length pre + S (length post) =? 0)%nat with false
    by (symmetry; apply Nat.eqb_neq; lia).
Qed.

Lemma addHistory_some_user nowId nowTs f msgs m :
  m ∈ msgs → role m = user → is_Some (addHistory nowId nowTs f msgs).
Proof.
  intros Hin Hrole. unfold addHistory, newHistory.
  destruct msgs as [|m' msgs']; [by apply elem_of_nil in Hin|]. simpl.
  assert (Hf : m ∈ filter (λ m, role m = user) (m' :: msgs'))
    by (by apply list_elem_of_filter).
  destruct (filter _ (m' :: msgs')); [by apply elem_of_nil in Hf|].
  by eexists.
Qed.

(** *** The updater of [addHistory] *)

Lemma sessions_insert_eq f l (h : Histories) :
  sessions f (<[f := l]> h) = l.
Proof. unfold sessions. by rewrite lookup_insert_eq. Qed.

Lemma sessions_insert_ne f g l (h : Histories) :
  f ≠ g → sessions g (<[f := l]> h) = sessions g h.
Proof. intros. unfold sessions. by rewrite lookup_insert_ne. Qed.

Lemma sessions_step f (h : Histories) (c : AddCall) :
  sessions f (step h c) =
    match (if decide (call_feature c = f) then created c else None) with
    | Some r => take 20 (r :: sessions f h)
    | None => sessions f h
    end.
Proof.
  unfold step, addHistory, created.
  destruct (newHistory _ _ _ _) as [r|]; simpl.
  - destruct (decide (call_feature c = f)) as [->|Hne].
    + by rewrite sessions_insert_eq.
    + by rewrite sessions_insert_ne.
  - by destruct (decide (call_feature c = f)).
Qed.

Lemma sessions_run f (calls : list AddCall) (h : Histories) :
  length (sessions f h) ≤ 20 →
  sessions f (run calls h) =
    take 20 (reverse (created_for f calls) ++ sessions f h).
Proof.
  intros Hlen. induction calls as [|c calls IH] using rev_ind.
  - simpl. by rewrite take_ge.
  - unfold run, created_for in *. rewrite foldl_app, omap_app. simpl.
    rewrite sessions_step, IH.
    destruct (if decide (call_feature c = f) then created c else None)
      as [r|]; simpl.
    + rewrite reverse_app. simpl. rewrite take_take. by f_equal.
    + by rewrite app_nil_r.
Qed.

(** *** The claims *)

(** C7: for every feature and every transcript with zero USER turns (the
    empty transcript included), [addHistory] returns before it reaches
    [setHistories]: the whole mapping, and so the feature's session list,
    are unchanged. *)
Theorem C7_no_user_turn_is_noop nowId nowTs f msgs (h : Histories) :
  no_user_turn msgs →
  addHistory nowId nowTs f msgs = None
  ∧ setHistories (addHistory nowId nowTs f msgs) h = h
  ∧ sessions f (setHistories (addHistory nowId nowTs f msgs) h)
    = sessions f h.
Proof.
  intros Hno. unfold addHistory.
  by rewrite (newHistory_no_user nowId nowTs f msgs Hno).
Qed.

Lemma C7_witness :
  no_user_turn Sample.only_assistant
  ∧ no_user_turn []
  ∧ setHistories (addHistory 5 5 "chat" Sample.only_assistant)
      Sample.full_store = Sample.full_store
  ∧ setHistories (addHistory 5 5 "chat" []) Sample.full_store
    = Sample.full_store.
Proof.
  assert (H1 : no_user_turn Sample.only_assistant)
    by (repeat constructor; discriminate).
  assert (H2 : no_user_turn []) by constructor.
  split; [exact H1|]. split; [exact H2|]. split.
  - exact (proj1 (proj2
      (C7_no_user_turn_is_noop 5 5 "chat" _ Sample.full_store H1))).
  - exact (proj1 (proj2
      (C7_no_user_turn_is_noop 5 5 "chat" _ Sample.full_store H2))).
Defined.

(** C6: for every transcript whose first USER turn has content [s], the
    record that [addHistory] puts first has as title the first
    [min |s| 30] characters of [s] and nothing more, and as preview [s]
    itself when [|s| <= 50], else the first 50 characters of [s] followed
    by ["..."]; for [|s| = 35] the title has 30 characters and the preview
    is [s]. *)
Theorem C6_title_and_preview nowId nowTs f msgs m0 (h : Histories) :
  first_user_turn msgs m0 →
  ∃ u r,
    addHistory nowId nowTs f msgs = Some u
    ∧ head (sessions f (u h)) = Some r
    ∧ first_chars 30 (content m0) (title r)
    ∧ (String.length (content m0) ≤ 50 → preview r = content m0)
    ∧ (50 < String.length (content m0) →
       ∃ p, first_chars 50 (content m0) p ∧ String.length p = 50
            ∧ preview r = p +:+ "...")
    ∧ (String.length (content m0) = 35 →
       String.length (title r) = 30 ∧ preview r = content m0).
Proof.
  intros Hfirst. unfold addHistory.
  rewrite (newHistory_first_user nowId nowTs f msgs m0 Hfirst).
  eexists _, _. split; [reflexivity|].
  split; [by rewrite sessions_insert_eq|]. simpl.
  split; [apply substring_0_first_chars|].
  assert (Hshort : String.length (content m0) ≤ 50 →
    String.substring 0 50 (content m0) +:+
      (if (50 <? String.length (content m0))%nat then "..." else "")
    = content m0).
  { intros Hle. rewrite substring_0_all by done.
    replace (50 <? String.length (content m0))%nat with false
      by (symmetry; apply Nat.ltb_ge; lia).
    apply app_empty_r. }
  split; [exact Hshort|]. split.
  - intros Hgt. exists (String.substring 0 50 (content m0)).
    split; [apply substring_0_first_chars|].
    split; [rewrite substring_0_length; lia|].
    by replace (50 <? String.length (content m0))%nat with true
      by (symmetry; apply Nat.ltb_lt; lia).
  - intros H35. split.
    + rewrite substring_0_length. lia.
    + apply Hshort. lia.
Qed.

Example newHistory_35 :
  newHistory 1700000000000 1700000000001 "chat"
    [Sample.greeting; Sample.question35; Sample.answer]
  = Some {| id := "1700000000000"; feature := "chat";
            title := "abcdefghijklmnopqrstuvwxyz0123";
            timestamp := 1700000000001;
            preview := "abcdefghijklmnopqrstuvwxyz012345678";
            messages :=
              [Sample.greeting; Sample.question35; Sample.answer] |}.
Proof. vm_compute. reflexivity. Qed.

Example newHistory_60 :
  newHistory 1700000000000 1700000000001 "chat"
    [Sample.greeting; Sample.question60; Sample.answer]
  = Some {| id := "1700000000000"; feature := "chat";
            title := "abcdefghijklmnopqrstuvwxyz0123";
            timestamp := 1700000000001;
            preview :=
              "abcdefghijklmnopqrstuvwxyz0123456789ABCDEFGHIJKLMN...";
            messages :=
              [Sample.greeting; Sample.question60; Sample.answer] |}.
Proof. vm_compute. reflexivity. Qed.

Lemma C6_witness :
  first_user_turn [Sample.greeting; Sample.question35; Sample.answer]
    Sample.question35
  ∧ ∃ u r,
      addHistory 7 8 "chat"
        [Sample.greeting; Sample.question35; Sample.answer] = Some u
      ∧ head (sessions "chat" (u ∅)) = Some r
      ∧ String.length (title r) = 30
      ∧ preview r = content Sample.question35.
Proof.
  assert (H : first_user_turn
                [Sample.greeting; Sample.question35; Sample.answer]
                Sample.question35).
  { exists [Sample.greeting], [Sample.answer].
    split; [reflexivity|]. split; [|reflexivity].
    repeat constructor. discriminate. }
  split; [exact H|].
  destruct (C6_title_and_preview 7 8 "chat" _ _ ∅ H)
    as (u & r & Hu & Hr & _ & _ & _ & H35).
  exists u, r. split; [exact Hu|]. split; [exact Hr|].
  apply H35. reflexivity.
Defined.

(** C4: for every feature and every sequence of [addHistory] calls,
    started from a store whose list for the feature has at most 20
    records (the empty store in particular), the feature's list is the
    first 20 of: the records created for it, newest first, followed by
    the initial list; so it has at most 20 records in newest-first order.
    Adding a session to a feature that holds 20 records drops exactly the
    last (oldest) one, the length stays 20 and the new record is first. *)
Theorem C4_at_most_20_newest_first (f : string) (calls : list AddCall)
    (h : Histories) :
  length (sessions f h) ≤ 20 →
  sessions f (run calls h)
    = take 20 (reverse (created_for f calls) ++ sessions f h)
  ∧ length (sessions f (run calls h)) ≤ 20
  ∧ ∀ (h' : Histories) nowId nowTs msgs m0,
      first_user_turn msgs m0 →
      length (sessions f h') = 20 →
      ∃ u r kept oldest,
        addHistory nowId nowTs f msgs = Some u
        ∧ newHistory nowId nowTs f msgs = Some r
        ∧ sessions f h' = kept ++ [oldest]
        ∧ sessions f (u h') = r :: kept
        ∧ length (sessions f (u h')) = 20.
Proof.
  intros Hlen. split; [by apply sessions_run|]. split.
  - rewrite sessions_run by done. rewrite length_take. lia.
  - intros h' nowId nowTs msgs m0 Hfirst H20. unfold addHistory.
    rewrite (newHistory_first_user nowId nowTs f msgs m0 Hfirst).
    destruct (sessions f h') as [|x l] eqn:Hold using rev_ind;
      [simpl in H20; lia|]. clear IHl.
    rewrite length_app in H20. simpl in H20.
    eexists _, _, l, x. split; [reflexivity|]. split; [reflexivity|].
    split; [reflexivity|].
    rewrite sessions_insert_eq, Hold. unfold Js.slice0.
    change (take 20 (?r :: ?t)) with (r :: take 19 t).
    rewrite (take_app_length' l [x] 19) by lia. split; [reflexivity|].
    simpl. lia.
Qed.

Lemma C4_witness :
  length (sessions "chat" ∅) ≤ 20
  ∧ length (sessions "chat" Sample.full_store) = 20
  ∧ ∃ u r kept oldest,
      addHistory 21 21 "chat" Sample.exchange = Some u
      ∧ newHistory 21 21 "chat" Sample.exchange = Some r
      ∧ sessions "chat" Sample.full_store = kept ++ [oldest]
      ∧ sessions "chat" (u Sample.full_store) = r :: kept
      ∧ length (sessions "chat" (u Sample.full_store)) = 20.
Proof.
  assert (H0 : length (sessions "chat" ∅) ≤ 20) by (vm_compute; lia).
  assert (H20 : length (sessions "chat" Sample.full_store) = 20)
    by (vm_compute; reflexivity).
  assert (Hfirst : first_user_turn Sample.exchange Sample.question).
  { exists [Sample.greeting], [Sample.answer].
    split; [reflexivity|]. split; [|reflexivity].
    repeat constructor. discriminate. }
  split; [exact H0|]. split; [exact H20|].
  exact (proj2 (proj2 (C4_at_most_20_newest_first "chat" [] ∅ H0))
           Sample.full_store 21%Z 21%Z Sample.exchange Sample.question
           Hfirst H20).
Defined.

(** C5 (the code at a failing input): two calls of [addHistory] whose
    [Date.now()] readings coincide create two different records with the
    same [id]; the claim asks for distinct ids. *)
Lemma C5_same_clock_reading_same_id :
  ∃ r1 r2,
    sessions "chat"
      (run [Sample.call_at 1700000000000 Sample.exchange;
            Sample.call_at 1700000000000
              [Sample.question35; Sample.answer]] ∅)
    = [r2; r1]
    ∧ r1 ≠ r2
    ∧ id r1 = "1700000000000"
    ∧ id r2 = "1700000000000".
Proof.
  eexists _, _. split; [vm_compute; reflexivity|].
  split; [discriminate|]. split; reflexivity.
Qed.

(** Records created at different clock readings have different ids. *)
Lemma newHistory_id_inj now1 now2 ts1 ts2 f1 f2 m1 m2 r1 r2 :
  newHistory now1 ts1 f1 m1 = Some r1 →
  newHistory now2 ts2 f2 m2 = Some r2 →
  now1 ≠ now2 → id r1 ≠ id r2.
Proof.
  unfold newHistory. intros H1 H2 Hne Hid. apply Hne.
  destruct (length m1 =? 0)%nat; [done|].
  destruct (length m2 =? 0)%nat; [done|].
  destruct (filter _ m1); [done|]. destruct (filter _ m2); [done|].
  simplify_eq. simpl in Hid. by apply (inj pretty) in Hid.
Qed.

End HistoryProps.

(** * Properties of the hydration *)

Module ProviderProps.

Import History Provider.

(** C8: for every persisted blob and every behaviour of [JSON.parse], the
    mount effect returns normally and marks the provider hydrated; when the
    blob is absent, empty or does not parse, the mapping is the empty one
    the provider started with, and when it parses the mapping is the parsed
    one. *)
Theorem C8_hydration_never_raises
    (JSON_parse : string → Js.Result Histories) (stored : option string) :
  ∃ s',
    mount JSON_parse stored initial = Js.Ok s'
    ∧ isHydrated s' = true
    ∧ (stored = None → histories s' = ∅)
    ∧ (stored = Some "" → histories s' = ∅)
    ∧ (∀ blob e, stored = Some blob → JSON_parse blob = Js.Throw e →
         histories s' = ∅)
    ∧ (∀ blob h, stored = Some blob → blob ≠ "" →
         JSON_parse blob = Js.Ok h → histories s' = h).
Proof.
  unfold mount. eexists. split; [reflexivity|]. split; [reflexivity|].
  repeat split.
  - by intros ->.
  - by intros ->.
  - intros blob e -> He. simpl. destruct (Js.truthy blob); [|done].
    by rewrite He.
  - intros blob h -> Hne Hh. simpl.
    destruct blob as [|c blob]; [done|]. simpl. by rewrite Hh.
Qed.

Lemma C8_witness :
  (∃ s', mount Sample.parse_fails (Some "{corrupt") initial = Js.Ok s'
         ∧ histories s' = ∅)
  ∧ (∃ s', mount Sample.parse_fails None initial = Js.Ok s'
           ∧ histories s' = ∅)
  ∧ (∃ s', mount Sample.parse_full (Some "{...}") initial = Js.Ok s'
           ∧ histories s' = Sample.full_store).
Proof.
  split; [|split].
  - destruct (C8_hydration_never_raises Sample.parse_fails (Some "{corrupt"))
      as (s' & Hs' & _ & _ & _ & Hthrow & _).
    exists s'. split; [exact Hs'|].
    exact (Hthrow "{corrupt" _ eq_refl eq_refl).
  - destruct (C8_hydration_never_raises Sample.parse_fails None)
      as (s' & Hs' & _ & Hnone & _).
    exists s'. split; [exact Hs'|]. exact (Hnone eq_refl).
  - destruct (C8_hydration_never_raises Sample.parse_full (Some "{...}"))
      as (s' & Hs' & _ & _ & _ & _ & Hok).
    exists s'. split; [exact Hs'|].
    refine (Hok "{...}" _ eq_refl _ eq_refl). discriminate.
Defined.

End ProviderProps.

(** * Properties of the chat page *)

Module ChatProps.

Import Chat ChatSpec.

(** *** The guard of [handleSend] *)

Example trim_inner_space_kept : Js.trim "  a b  " = "a b".
Proof. reflexivity. Qed.

Example trim_blank : Js.trim "   " = "".
Proof. reflexivity. Qed.

Lemma truthy_true (s : string) : Js.truthy s = true ↔ s ≠ "".
Proof. by destruct s. Qed.

Lemma length_eqb_0 {A} (l : list A) : (length l =? 0)%nat = false ↔ l ≠ [].
Proof. by destruct l. Qed.

Lemma guard_valid (s : State) :
  valid s ↔
  negb (Js.truthy (Js.trim (input s))) && (length (files s) =? 0)%nat = false.
Proof.
  unfold valid. rewrite andb_false_iff, negb_false_iff, truthy_true.
  by rewrite length_eqb_0.
Qed.

Lemma guard_invalid (s : State) :
  ¬ valid s ↔
  negb (Js.truthy (Js.trim (input s))) && (length (files s) =? 0)%nat = true.
Proof. rewrite guard_valid. by destruct (_ && _). Qed.

Lemma classic_valid (s : State) : valid s ∨ ¬ valid s.
Proof.
  destruct (negb (Js.truthy (Js.trim (input s)))
            && (length (files s) =? 0)%nat) eqn:H.
  - right. by apply guard_invalid.
  - left. by apply guard_valid.
Qed.

Lemma start_invalid (s : State) :
  ¬ valid s → handleSend_start s = Invalid (setError MSG_EMPTY s).
Proof.
  intros H%guard_invalid. unfold handleSend_start. by rewrite H.
Qed.

Lemma start_valid (s : State) :
  valid s →
  ∃ s' formData,
    handleSend_start s =
      Pending s'
        {| c_messages := messages s; c_input := input s;
           c_updatedMessages := messages s ++ [userMessage s] |}
        formData
    ∧ messages s' = messages s ++ [userMessage s]
    ∧ abortControllerRef s' = Some {| aborted := false |}.
Proof.
  intros H%guard_valid. unfold handleSend_start. rewrite H.
  eexists _, _. split; [reflexivity|]. by split.
Qed.

Lemma userMessage_no_files (s : State) :
  files s = [] → content (userMessage s) = input s.
Proof. intros H. unfold userMessage. by rewrite H. Qed.

Lemma userMessage_files (s : State) :
  files s ≠ [] →
  content (userMessage s)
  = "[" +:+ pretty (length (files s)) +:+ " tệp đính kèm] " +:+ input s.
Proof. intros H. unfold userMessage. by destruct (files s). Qed.

(** *** The settlement *)

Lemma settle_live (s : State) (net : Settled) :
  abortControllerRef s = Some {| aborted := false |} → settle s net = net.
Proof. intros H. unfold settle. by rewrite H. Qed.

Lemma settle_canceled (s : State) (net : Settled) :
  abortControllerRef s = Some {| aborted := false |} →
  settle (handleCancel s) net = FetchRejected AbortError.
Proof. intros H. unfold settle, handleCancel. by rewrite H. Qed.

Lemma submit_valid (s : State) (cancel : bool) (net : Settled) :
  valid s →
  ∃ s' : State,
    messages s' = messages s ++ [userMessage s]
    ∧ submit s cancel net =
        handleSend_settled
          {| c_messages := messages s; c_input := input s;
             c_updatedMessages := messages s ++ [userMessage s] |}
          (if cancel then FetchRejected AbortError else net)
          (if cancel then handleCancel s' else s').
Proof.
  intros (s' & fd & Hstart & Hmsgs & Hctrl)%start_valid.
  exists s'. split; [done|]. unfold submit. rewrite Hstart.
  destruct cancel.
  - by rewrite settle_canceled.
  - by rewrite settle_live.
Qed.

Lemma settled_success k (s : State) (data : Data) :
  data_success data = true →
  handleSend_settled k (Fetched true (Js.Ok data)) s
  = (setLoading false
       (setMessages
          (c_updatedMessages k ++
             [{| role := assistant; content := data_response data |}]) s),
     [{| hc_feature := "chat";
         hc_messages :=
           c_updatedMessages k ++
             [{| role := assistant; content := data_response data |}] |}]).
Proof. intros H. unfold handleSend_settled. simpl. by rewrite H. Qed.

Lemma settled_canceled k (s : State) :
  handleSend_settled k (FetchRejected AbortError) s
  = (setLoading false (setError MSG_CANCELED (setMessages (c_messages k) s)),
     []).
Proof. reflexivity. Qed.

Lemma or_lit_nonempty (m d : string) :
  m ≠ "" → Js.or_lit (Some m) d = m.
Proof. by destruct m. Qed.

Lemma or_lit_blank (v : option string) (d : string) :
  blank v → Js.or_lit v d = d.
Proof. by intros [-> | ->]. Qed.

Lemma or_blank (a b : option string) : blank a → Js.or a b = b.
Proof. by intros [-> | ->]. Qed.

Lemma or_nonempty (a : string) (b : option string) :
  a ≠ "" → Js.or (Some a) b = Some a.
Proof. by destruct a. Qed.

Lemma blank_dec (v : option string) : blank v ∨ ∃ x, v = Some x ∧ x ≠ "".
Proof.
  destruct v as [[|c x]|]; [left; by right | right | left; by left].
  by eexists.
Qed.

(** The literal thrown inside the [try] block or the body's own text. *)
Lemma detail_message ok (data : Data) :
  ∃ msg,
    failure_message (Fetched ok (Js.Ok data)) msg ∧ msg ≠ ""
    ∧ Js.or_lit (Js.or (data_detail data) (data_error data)) MSG_SEND_FAILED
      = msg.
Proof.
  destruct (blank_dec (data_detail data)) as [Hd | (d & Hd & Hne)].
  - rewrite (or_blank _ _ Hd).
    destruct (blank_dec (data_error data)) as [He | (e & He & Hne)].
    + exists MSG_SEND_FAILED. split; [by apply fm_send_failed|].
      split; [done|]. by apply or_lit_blank.
    + exists e. split; [by apply fm_error|]. split; [done|].
      rewrite He. by apply or_lit_nonempty.
  - exists d. split; [by apply fm_detail|]. split; [done|].
    rewrite Hd, or_nonempty by done. by apply or_lit_nonempty.
Qed.

Lemma blank_not_nonempty (v : option string) (x : string) :
  blank v → v = Some x → x ≠ "" → False.
Proof. intros [-> | ->] [= <-]; done. Qed.

(** A failure determines its message. *)
Lemma failure_message_functional (net : Settled) (m1 m2 : string) :
  failure_message net m1 → failure_message net m2 → m1 = m2.
Proof.
  intros H1 H2.
  destruct H1; inversion H2; subst; try congruence;
    try (exfalso; eauto using blank_not_nonempty).
Qed.

Lemma eqb_abort_false (e : Js.Exn) :
  Js.name e ≠ "AbortError" → String.eqb (Js.name e) "AbortError" = false.
Proof. intros H. by apply String.eqb_neq. Qed.

Lemma settled_failure k (s : State) (net : Settled) :
  failure net →
  ∃ msg,
    failure_message net msg
    ∧ handleSend_settled k net s = (setLoading false (setError msg s), []).
Proof.
  intros Hfail. unfold handleSend_settled.
  destruct Hfail as [data | ok data Hs | e He | ok e He]; simpl.
  - destruct (detail_message false data) as (msg & Hfm & Hne & ->).
    exists msg. split; [done|]. by destruct msg.
  - destruct (detail_message ok data) as (msg & Hfm & Hne & ->).
    exists msg. split; [done|]. rewrite Hs, orb_true_r. simpl.
    by destruct msg.
  - rewrite (eqb_abort_false e He).
    destruct (Js.message e) as [|c m] eqn:Hm; simpl.
    + exists MSG_GENERIC. split; [by apply fm_rejected_silent | done].
    + exists (String c m). split; [|done].
      rewrite <- Hm. apply fm_rejected. by rewrite Hm.
  - rewrite (eqb_abort_false e He).
    destruct (Js.message e) as [|c m] eqn:Hm; simpl.
    + exists MSG_GENERIC. split; [by apply fm_body_silent | done].
    + exists (String c m). split; [|done].
      rewrite <- Hm. apply fm_body. by rewrite Hm.
Qed.

(** *** The claims *)

(** C1 (as amended): for every prior transcript and every submission that
    passes the guard (an input with a character that is not white space, or
    an attached file), a request that settles with a successful response
    leaves the transcript equal to the prior one followed by one USER turn
    and then one ASSISTANT turn whose content is the [response] of the
    payload; the USER turn's content is the input when no file is attached
    and the attachment marker, a space and the input otherwise; that
    transcript is the one passed to [addHistory]. *)
Theorem C1_success_appends_user_then_assistant
    (s : State) (net : Settled) (data : Data) :
  valid s → success net data →
  ∃ u,
    role u = user
    ∧ (files s = [] → content u = input s)
    ∧ (files s ≠ [] →
       content u
       = "[" +:+ pretty (length (files s)) +:+ " tệp đính kèm] " +:+ input s)
    ∧ messages (submit s false net).1
      = messages s
          ++ [u; {| role := assistant; content := data_response data |}]
    ∧ (submit s false net).2
      = [{| hc_feature := "chat";
            hc_messages := messages (submit s false net).1 |}].
Proof.
  intros Hvalid [-> Hok].
  destruct (submit_valid s false (Fetched true (Js.Ok data)) Hvalid)
    as (s' & Hmsgs & ->).
  rewrite settled_success by done. simpl.
  exists (userMessage s). split; [done|].
  split; [apply userMessage_no_files|].
  split; [apply userMessage_files|].
  by rewrite <- !app_assoc.
Qed.

Lemma C1_witness :
  valid (Sample.chat_idle "hi" [])
  ∧ success (Fetched true (Js.Ok Sample.chat_ok)) Sample.chat_ok
  ∧ ∃ u,
      content u = "hi"
      ∧ messages
          (submit (Sample.chat_idle "hi" []) false
             (Fetched true (Js.Ok Sample.chat_ok))).1
        = [Sample.greeting] ++ [u; Sample.answer].
Proof.
  assert (Hv : valid (Sample.chat_idle "hi" [])) by (left; discriminate).
  assert (Hs : success (Fetched true (Js.Ok Sample.chat_ok)) Sample.chat_ok)
    by (split; reflexivity).
  split; [exact Hv|]. split; [exact Hs|].
  destruct (C1_success_appends_user_then_assistant _ _ _ Hv Hs)
    as (u & _ & Hu & _ & Hm & _).
  exists u. split; [exact (Hu eq_refl) | exact Hm].
Defined.

(** C1 (as stated) fails when a file is attached: the input is non-empty
    and the response successful, but the USER turn is not the submitted
    input. *)
Lemma C1_counterexample :
  input (Sample.chat_idle "hi" [Sample.pdf]) ≠ ""
  ∧ success (Fetched true (Js.Ok Sample.chat_ok)) Sample.chat_ok
  ∧ messages
      (submit (Sample.chat_idle "hi" [Sample.pdf]) false
         (Fetched true (Js.Ok Sample.chat_ok))).1
    = [Sample.greeting;
       {| role := user; content := "[1 tệp đính kèm] hi" |};
       {| role := assistant; content := "ok" |}]
  ∧ messages
      (submit (Sample.chat_idle "hi" [Sample.pdf]) false
         (Fetched true (Js.Ok Sample.chat_ok))).1
    ≠ messages (Sample.chat_idle "hi" [Sample.pdf])
        ++ [{| role := user; content := "hi" |};
            {| role := assistant; content := "ok" |}].
Proof.
  split; [discriminate|]. split; [by split|].
  split; [vm_compute; reflexivity|].
  vm_compute. discriminate.
Qed.

(** An input of white space only, without files, does not pass the guard:
    nothing is appended and nothing is sent. *)
Example blank_input_is_rejected :
  submit (Sample.chat_idle "   " []) false
    (Fetched true (Js.Ok Sample.chat_ok))
  = (setError MSG_EMPTY (Sample.chat_idle "   " []), []).
Proof. vm_compute. reflexivity. Qed.

(** C2: for every prior transcript and every submission that is in flight,
    [handleCancel] before the request settles leaves the transcript equal
    to the one before the submission, with [error] set to the cancellation
    message and nothing passed to [addHistory], whatever the network would
    have delivered.  The cancellation message differs from the other
    messages of the page, and the resulting transcript differs from the one
    that any failure leaves. *)
Theorem C2_cancel_restores_transcript (s : State) (net : Settled) :
  valid s →
  messages (submit s true net).1 = messages s
  ∧ error (submit s true net).1 = MSG_CANCELED
  ∧ loading (submit s true net).1 = false
  ∧ (submit s true net).2 = []
  ∧ MSG_CANCELED ≠ MSG_GENERIC
  ∧ MSG_CANCELED ≠ MSG_SEND_FAILED
  ∧ MSG_CANCELED ≠ MSG_EMPTY
  ∧ ∀ net', failure net' →
      messages (submit s false net').1 ≠ messages (submit s true net).1.
Proof.
  intros Hvalid.
  destruct (submit_valid s true net Hvalid) as (s' & Hmsgs & ->).
  rewrite settled_canceled. simpl.
  do 4 (split; [done|]). do 3 (split; [discriminate|]).
  intros net' Hfail.
  destruct (submit_valid s false net' Hvalid) as (s'' & Hmsgs' & ->).
  destruct (settled_failure
              {| c_messages := messages s; c_input := input s;
                 c_updatedMessages := messages s ++ [userMessage s] |}
              s'' net' Hfail) as (msg & _ & ->).
  simpl. rewrite Hmsgs'. intros Heq.
  apply (f_equal length) in Heq. rewrite length_app in Heq. simpl in Heq.
  lia.
Qed.

Lemma C2_witness :
  valid (Sample.chat_idle "hi" [])
  ∧ messages
      (submit (Sample.chat_idle "hi" []) true
         (Fetched true (Js.Ok Sample.chat_ok))).1
    = [Sample.greeting]
  ∧ error
      (submit (Sample.chat_idle "hi" []) true
         (Fetched true (Js.Ok Sample.chat_ok))).1
    = MSG_CANCELED.
Proof.
  assert (Hv : valid (Sample.chat_idle "hi" [])) by (left; discriminate).
  split; [exact Hv|].
  destruct (C2_cancel_restores_transcript _
              (Fetched true (Js.Ok Sample.chat_ok)) Hv) as (Hm & He & _).
  split; [exact Hm | exact He].
Defined.

(** C3 (as amended): for every prior transcript and every submission that
    passes the guard, a request that fails without having been canceled
    leaves the transcript equal to the prior one followed by the USER turn
    alone, passes nothing to [addHistory], and sets [error]: for a body
    that was read, to its [detail], else its [error], else the literal
    "could not send"; for a thrown error (a rejected [fetch] or a body that
    cannot be read), to the thrown error's own message, else the generic
    literal. *)
Theorem C3_failure_keeps_user_turn (s : State) (net : Settled) :
  valid s → failure net →
  ∃ msg,
    messages (submit s false net).1 = messages s ++ [userMessage s]
    ∧ role (userMessage s) = user
    ∧ (submit s false net).2 = []
    ∧ failure_message net msg
    ∧ error (submit s false net).1 = msg
    ∧ loading (submit s false net).1 = false.
Proof.
  intros Hvalid Hfail.
  destruct (submit_valid s false net Hvalid) as (s' & Hmsgs & ->).
  destruct (settled_failure
              {| c_messages := messages s; c_input := input s;
                 c_updatedMessages := messages s ++ [userMessage s] |}
              s' net Hfail) as (msg & Hmsg & ->).
  exists msg. simpl. by rewrite Hmsgs.
Qed.

Lemma C3_witness :
  valid (Sample.chat_idle "hi" [])
  ∧ failure (Fetched false (Js.Ok Sample.chat_refused))
  ∧ ∃ msg,
      messages
        (submit (Sample.chat_idle "hi" []) false
           (Fetched false (Js.Ok Sample.chat_refused))).1
      = [Sample.greeting] ++ [userMessage (Sample.chat_idle "hi" [])]
      ∧ error
          (submit (Sample.chat_idle "hi" []) false
             (Fetched false (Js.Ok Sample.chat_refused))).1
        = msg.
Proof.
  assert (Hv : valid (Sample.chat_idle "hi" [])) by (left; discriminate).
  assert (Hf : failure (Fetched false (Js.Ok Sample.chat_refused)))
    by constructor.
  split; [exact Hv|]. split; [exact Hf|].
  destruct (C3_failure_keeps_user_turn _ _ Hv Hf)
    as (msg & Hm & _ & _ & _ & He & _).
  exists msg. split; [exact Hm | exact He].
Defined.

Example refused_surfaces_detail :
  error
    (submit (Sample.chat_idle "hi" []) false
       (Fetched false (Js.Ok Sample.chat_refused))).1
  = "quota exceeded".
Proof. vm_compute. reflexivity. Qed.

(** C3 (as stated) fails for a thrown error: when [fetch] rejects with a
    network error, or the body of an HTTP 500 response is not JSON, no
    detail of a response body is available, yet [error] is the thrown
    error's message and not one of the page's generic messages. *)
Lemma C3_counterexample :
  valid (Sample.chat_idle "hi" [])
  ∧ failure (FetchRejected Sample.network_down)
  ∧ error
      (submit (Sample.chat_idle "hi" []) false
         (FetchRejected Sample.network_down)).1
    = "Failed to fetch"
  ∧ failure (Fetched false (Js.Throw Sample.not_json))
  ∧ error
      (submit (Sample.chat_idle "hi" []) false
         (Fetched false (Js.Throw Sample.not_json))).1
    = "Unexpected token < in JSON at position 0"
  ∧ "Failed to fetch" ≠ MSG_GENERIC
  ∧ "Failed to fetch" ≠ MSG_SEND_FAILED
  ∧ "Unexpected token < in JSON at position 0" ≠ MSG_GENERIC
  ∧ "Unexpected token < in JSON at position 0" ≠ MSG_SEND_FAILED.
Proof.
  split; [left; discriminate|].
  split; [constructor; discriminate|].
  split; [vm_compute; reflexivity|].
  split; [constructor; discriminate|].
  split; [vm_compute; reflexivity|].
  repeat split; discriminate.
Qed.

(** C9: one [handleSend] calls [addHistory] exactly once when the request
    settles with a successful response, and that call reaches
    [setHistories] whatever the clock reads; it calls [addHistory] not at
    all when the guard rejects the submission, when the submission is
    canceled, or when the request fails. *)
Theorem C9_one_history_call_on_success_only
    (s : State) (cancel : bool) (net : Settled) :
  (∀ data, valid s → cancel = false → success net data →
     length (submit s cancel net).2 = 1
     ∧ ∀ c, c ∈ (submit s cancel net).2 →
         ∀ nowId nowTs,
           is_Some (History.addHistory nowId nowTs
                      (hc_feature c) (hc_messages c)))
  ∧ (¬ valid s → (submit s cancel net).2 = [])
  ∧ (cancel = true → (submit s cancel net).2 = [])
  ∧ (failure net → (submit s cancel net).2 = []).
Proof.
  split; [|split; [|split]].
  - intros data Hvalid -> [-> Hok].
    destruct (submit_valid s false (Fetched true (Js.Ok data)) Hvalid)
      as (s' & Hmsgs & ->).
    rewrite settled_success by done. simpl. split; [done|].
    intros c ->%list_elem_of_singleton nowId nowTs. simpl.
    apply (HistoryProps.addHistory_some_user _ _ _ _ (userMessage s));
      [|done].
    rewrite !elem_of_app, list_elem_of_singleton. by left; right.
  - intros Hinvalid. unfold submit. by rewrite start_invalid.
  - intros ->. destruct (classic_valid s) as [Hvalid | Hinvalid].
    + destruct (submit_valid s true net Hvalid) as (s' & _ & ->).
      by rewrite settled_canceled.
    + unfold submit. by rewrite start_invalid.
  - intros Hfail. destruct (classic_valid s) as [Hvalid | Hinvalid].
    + destruct (submit_valid s cancel net Hvalid) as (s' & _ & ->).
      destruct cancel; [by rewrite settled_canceled|].
      by destruct (settled_failure
                     {| c_messages := messages s; c_input := input s;
                        c_updatedMessages := messages s ++ [userMessage s] |}
                     s' net Hfail) as (msg & _ & ->).
    + unfold submit. by rewrite start_invalid.
Qed.

Lemma C9_witness :
  length
    (submit (Sample.chat_idle "hi" []) false
       (Fetched true (Js.Ok Sample.chat_ok))).2 = 1
  ∧ (submit (Sample.chat_idle "hi" []) true
       (Fetched true (Js.Ok Sample.chat_ok))).2 = []
  ∧ (submit (Sample.chat_idle "hi" []) false
       (FetchRejected Sample.network_down)).2 = []
  ∧ (submit (Sample.chat_idle "   " []) false
       (Fetched true (Js.Ok Sample.chat_ok))).2 = [].
Proof.
  assert (Hv : valid (Sample.chat_idle "hi" [])) by (left; discriminate).
  assert (Hs : success (Fetched true (Js.Ok Sample.chat_ok)) Sample.chat_ok)
    by (split; reflexivity).
  assert (Hf : failure (FetchRejected Sample.network_down))
    by (constructor; discriminate).
  assert (Hi : ¬ valid (Sample.chat_idle "   " [])).
  { intros [H | H]; [by apply H; vm_compute | by apply H]. }
  split; [|split; [|split]].
  - exact (proj1 (proj1 (C9_one_history_call_on_success_only
                           (Sample.chat_idle "hi" []) false _)
                    Sample.chat_ok Hv eq_refl Hs)).
  - exact (proj1 (proj2 (proj2 (C9_one_history_call_on_success_only
                                  (Sample.chat_idle "hi" []) true _)))
             eq_refl).
  - exact (proj2 (proj2 (proj2 (C9_one_history_call_on_success_only
                                  (Sample.chat_idle "hi" []) false _)))
             Hf).
  - exact (proj1 (proj2 (C9_one_history_call_on_success_only
                           (Sample.chat_idle "   " []) false _))
             Hi).
Defined.

End ChatProps.

(** * Properties of the study-buddy page *)

Module StudyBuddyProps.

Import StudyBuddy.

Lemma files_guard (s : State) :
  files s ≠ [] →
  negb (Js.truthy (Js.trim (input s))) && (length (files s) =? 0)%nat = false
  ∧ (0 <? length (files s))%nat = true.
Proof.
  intros H. destruct (files s); [done|]. simpl. by rewrite andb_false_r.
Qed.

(** C10: on the study-buddy page, whenever at least one file is attached,
    [handleSend] goes ahead whatever was typed; the USER turn it appends
    has as content exactly the marker with the number of files; the parts
    of the outbound form are the files, one part each, and no request part,
    so the typed text is not sent; and neither the appended turn nor the
    form depends on the typed text. *)
Theorem C10_attachments_discard_text (s : State) :
  files s ≠ [] →
  ∃ s' k formData,
    handleSend_start s = Pending s' k formData
    ∧ messages s'
      = messages s
          ++ [{| role := user;
                 content :=
                   "[" +:+ pretty (length (files s)) +:+ " tệp đính kèm]" |}]
    ∧ formData = map FilePart (files s)
    ∧ (∀ r, RequestPart r ∉ formData)
    ∧ ∀ txt, ∃ t' k',
        handleSend_start (setInput txt s) = Pending t' k' formData
        ∧ messages t' = messages s'.
Proof.
  intros Hfiles. destruct (files_guard s Hfiles) as [Hguard Hpos].
  unfold handleSend_start, userMessage. rewrite Hguard, Hpos.
  eexists _, _, _. split; [reflexivity|]. split; [reflexivity|].
  split; [reflexivity|]. split.
  - intros r (f & Hf & _)%list_elem_of_fmap. discriminate.
  - intros txt. simpl. rewrite Hpos.
    replace (negb (Js.truthy (Js.trim txt)) && (length (files s) =? 0)%nat)
      with false by (by destruct (files s); [|rewrite andb_false_r]).
    by eexists _, _.
Qed.

Lemma C10_witness :
  files (Sample.study_idle "please summarise" [Sample.pdf; Sample.pdf]) ≠ []
  ∧ ∃ s' k formData,
      handleSend_start
        (Sample.study_idle "please summarise" [Sample.pdf; Sample.pdf])
      = Pending s' k formData
      ∧ messages s'
        = [Sample.greeting;
           {| role := user; content := "[2 tệp đính kèm]" |}]
      ∧ formData = [FilePart Sample.pdf; FilePart Sample.pdf].
Proof.
  assert (H : files (Sample.study_idle "please summarise"
                       [Sample.pdf; Sample.pdf]) ≠ []) by discriminate.
  split; [exact H|].
  destruct (C10_attachments_discard_text _ H)
    as (s' & k & fd & Hstart & Hm & Hfd & _).
  exists s', k, fd. split; [exact Hstart|]. split; [exact Hm | exact Hfd].
Defined.

(** Without files the typed text is both the turn and the request. *)
Example text_only_is_sent :
  ∃ s' k,
    handleSend_start (Sample.study_idle "please summarise" [])
    = Pending s' k
        [RequestPart {| text := "please summarise";
                        knowledge_base := None |}]
    ∧ messages s'
      = [Sample.greeting;
         {| role := user; content := "please summarise" |}].
Proof. eexists _, _. split; vm_compute; reflexivity. Qed.

End StudyBuddyProps.

(** * Further properties of the chat-history context *)

Module HistoryOpsProps.

Import History HistoryProps.

(** *** [deleteHistory], [clearHistory] and [loadHistory] on one list *)

Lemma sessions_delete_eq f i (h : Histories) :
  sessions f (deleteHistory f i h) = filter (λ r, id r ≠ i) (sessions f h).
Proof. unfold deleteHistory. by rewrite sessions_insert_eq. Qed.

Lemma sessions_delete_ne f g i (h : Histories) :
  f ≠ g → sessions g (deleteHistory f i h) = sessions g h.
Proof. intros. unfold deleteHistory. by rewrite sessions_insert_ne. Qed.

Lemma filter_all {A} (P : A → Prop) `{∀ x, Decision (P x)} (l : list A) :
  (∀ x, x ∈ l → P x) → filter P l = l.
Proof.
  induction l as [|x l IH]; intros Hall; [done|].
  rewrite filter_cons_True by (apply Hall; left).
  f_equal. apply IH. intros y Hy. apply Hall. by right.
Qed.

Lemma find_after_delete_same (i : string) (l : list ChatHistory) :
  filter (λ r, id r = i) (filter (λ r, id r ≠ i) l) = [].
Proof.
  induction l as [|x l IH]; [done|].
  destruct (decide (id x = i)) as [Heq | Hne].
  - by rewrite (filter_cons_False (λ r, id r ≠ i)) by (intros ?; done).
  - rewrite (filter_cons_True (λ r, id r ≠ i)) by done.
    by rewrite filter_cons_False.
Qed.

Lemma find_after_delete_other (i j : string) (l : list ChatHistory) :
  j ≠ i →
  filter (λ r, id r = j) (filter (λ r, id r ≠ i) l)
  = filter (λ r, id r = j) l.
Proof.
  intros Hji. induction l as [|x l IH]; [done|].
  destruct (decide (id x = i)) as [Heq | Hne].
  - rewrite (filter_cons_False (λ r, id r ≠ i)) by (intros ?; done).
    rewrite (filter_cons_False (λ r, id r = j)) by congruence. done.
  - rewrite (filter_cons_True (λ r, id r ≠ i)) by done.
    destruct (decide (id x = j)).
    + rewrite !(filter_cons_True (λ r, id r = j)) by done. by f_equal.
    + by rewrite !(filter_cons_False (λ r, id r = j)) by done.
Qed.

(** Deleting an id that no record of the feature carries leaves the list
    of every feature as it was: same records, same order, same length. *)
Theorem deleteHistory_absent_id f i (h : Histories) :
  (∀ r, r ∈ sessions f h → id r ≠ i) →
  ∀ g, sessions g (deleteHistory f i h) = sessions g h.
Proof.
  intros Habsent g. destruct (decide (f = g)) as [<- | Hne].
  - rewrite sessions_delete_eq. by apply filter_all.
  - by apply sessions_delete_ne.
Qed.

Lemma deleteHistory_absent_id_witness :
  (∀ r, r ∈ sessions "chat" Sample.full_store → id r ≠ "99")
  ∧ sessions "chat" (deleteHistory "chat" "99" Sample.full_store)
    = sessions "chat" Sample.full_store.
Proof.
  assert (H : ∀ r, r ∈ sessions "chat" Sample.full_store → id r ≠ "99").
  { apply Forall_forall. vm_compute. repeat constructor; discriminate. }
  split; [exact H|].
  exact (deleteHistory_absent_id "chat" "99" Sample.full_store H "chat").
Defined.

(** After [deleteHistory] no record of the feature carries the deleted id,
    so [loadHistory] finds nothing under it; what [loadHistory] finds under
    any other id, or in any other feature, is what it found before; the
    list that remains is a sublist of the old one, in the old order. *)
Theorem deleteHistory_then_loadHistory f i (h : Histories) :
  loadHistory (deleteHistory f i h) f i = None
  ∧ (∀ r, r ∈ sessions f (deleteHistory f i h) → id r ≠ i)
  ∧ (∀ j, j ≠ i →
       loadHistory (deleteHistory f i h) f j = loadHistory h f j)
  ∧ (∀ g j, g ≠ f →
       loadHistory (deleteHistory f i h) g j = loadHistory h g j)
  ∧ sublist (sessions f (deleteHistory f i h)) (sessions f h).
Proof.
  unfold loadHistory. rewrite sessions_delete_eq.
  split; [by rewrite find_after_delete_same|].
  split; [by intros r [? _]%list_elem_of_filter|].
  split; [intros j Hj; by rewrite find_after_delete_other|].
  split; [intros g j Hg; by rewrite sessions_delete_ne|].
  apply sublist_filter.
Qed.

(** Deleting an id shortens the feature's list exactly when some record
    carries it; the list never grows. *)
Theorem deleteHistory_length f i (h : Histories) :
  length (sessions f (deleteHistory f i h)) ≤ length (sessions f h)
  ∧ (length (sessions f (deleteHistory f i h)) < length (sessions f h)
     ↔ ∃ r, r ∈ sessions f h ∧ id r = i).
Proof.
  rewrite sessions_delete_eq.
  split; [apply length_filter|]. split.
  - intros Hlt. destruct (decide (Exists (λ r, id r = i) (sessions f h)))
      as [Hex | Hnex].
    + apply Exists_exists in Hex. exact Hex.
    + exfalso. rewrite filter_all in Hlt; [lia|].
      intros r Hr Heq. apply Hnex, Exists_exists. eauto.
  - intros (r & Hr & Hid).
    induction (sessions f h) as [|x l IH]; [by apply elem_of_nil in Hr|].
    destruct (decide (id x = i)) as [Hx | Hx].
    + rewrite filter_cons_False by (intros ?; done).
      pose proof (length_filter (λ r, id r ≠ i) l). simpl. lia.
    + rewrite filter_cons_True by done. simpl.
      apply elem_of_cons in Hr as [-> | Hr]; [done|].
      specialize (IH Hr). lia.
Qed.

(** *** [addHistory] followed by [loadHistory] *)

Lemma addHistory_load_core nowId nowTs f msgs r (h : Histories) :
  newHistory nowId nowTs f msgs = Some r →
  ∃ u,
    addHistory nowId nowTs f msgs = Some u
    ∧ loadHistory (u h) f (id r) = Some r
    ∧ head (sessions f (u h)) = Some r.
Proof.
  intros Hr. unfold addHistory, loadHistory. rewrite Hr.
  eexists. split; [reflexivity|]. cbv beta zeta.
  rewrite sessions_insert_eq. unfold Js.slice0.
  change (take 20 (?x :: ?t)) with (x :: take 19 t).
  by rewrite filter_cons_True by done.
Qed.

Lemma newHistory_some_user nowId nowTs f msgs m :
  m ∈ msgs → role m = user →
  ∃ r, newHistory nowId nowTs f msgs = Some r
       ∧ messages r = msgs ∧ feature r = f ∧ id r = pretty nowId.
Proof.
  intros Hin Hrole. unfold newHistory.
  destruct msgs as [|m' msgs']; [by apply elem_of_nil in Hin|]. simpl.
  assert (Hf : m ∈ filter (λ m, role m = user) (m' :: msgs'))
    by (by apply list_elem_of_filter).
  destruct (filter _ (m' :: msgs')); [by apply elem_of_nil in Hf|].
  by eexists.
Qed.

(** A record that [addHistory] has just filed is the one [loadHistory]
    finds under its id, whatever the store held before (older records with
    the same id included): it carries the feature, the clock reading and
    the whole transcript. *)
Theorem addHistory_then_loadHistory nowId nowTs f msgs m0 (h : Histories) :
  first_user_turn msgs m0 →
  ∃ u r,
    addHistory nowId nowTs f msgs = Some u
    ∧ loadHistory (u h) f (pretty nowId) = Some r
    ∧ messages r = msgs
    ∧ feature r = f
    ∧ timestamp r = nowTs
    ∧ id r = pretty nowId.
Proof.
  intros Hfirst.
  pose proof (newHistory_first_user nowId nowTs f msgs m0 Hfirst) as Hr.
  destruct (addHistory_load_core nowId nowTs f msgs _ h Hr)
    as (u & Hu & Hload & _).
  eexists u, _. split; [exact Hu|]. split; [exact Hload|]. done.
Qed.

Lemma addHistory_then_loadHistory_witness :
  first_user_turn Sample.exchange Sample.question
  ∧ ∃ u r,
      addHistory 5 6 "chat" Sample.exchange = Some u
      ∧ loadHistory (u Sample.full_store) "chat" "5" = Some r
      ∧ messages r = Sample.exchange.
Proof.
  assert (H : first_user_turn Sample.exchange Sample.question).
  { exists [Sample.greeting], [Sample.answer].
    split; [reflexivity|]. split; [|reflexivity].
    repeat constructor. discriminate. }
  split; [exact H|].
  destruct (addHistory_then_loadHistory 5 6 "chat" _ _ Sample.full_store H)
    as (u & r & Hu & Hr & Hm & _).
  exists u, r. split; [exact Hu|]. split; [exact Hr | exact Hm].
Defined.

(** *** All three mutations together *)

Lemma sessions_apply_ne (h : Histories) (o : Op) g :
  g ≠ op_feature o → sessions g (apply h o) = sessions g h.
Proof.
  intros Hne. destruct o as [c | f i | f]; simpl in *.
  - rewrite sessions_step. by destruct (decide (call_feature c = g)).
  - by apply sessions_delete_ne.
  - unfold clearHistory. by rewrite sessions_insert_ne.
Qed.

(** A sequence of mutations none of which addresses feature [g] leaves the
    list of [g] as it was: features do not interfere. *)
Theorem mutations_of_other_features_do_not_interfere
    (ops : list Op) g (h : Histories) :
  Forall (λ o, op_feature o ≠ g) ops →
  sessions g (run_ops ops h) = sessions g h.
Proof.
  intros Hops. revert h. unfold run_ops.
  induction Hops as [|o ops Ho _ IH]; intros h; [done|].
  simpl. rewrite IH. by apply sessions_apply_ne.
Qed.

Lemma mutations_of_other_features_witness :
  Forall (λ o, op_feature o ≠ "chat")
    [Clear "study-buddy"; Add
       {| call_nowId := 30; call_nowTs := 30;
          call_feature := "study-buddy"; call_messages := Sample.exchange |};
     Delete "polisher" "3"]
  ∧ sessions "chat"
      (run_ops
         [Clear "study-buddy"; Add
            {| call_nowId := 30; call_nowTs := 30;
               call_feature := "study-buddy";
               call_messages := Sample.exchange |};
          Delete "polisher" "3"] Sample.full_store)
    = sessions "chat" Sample.full_store.
Proof.
  assert (H : Forall (λ o, op_feature o ≠ "chat")
    [Clear "study-buddy"; Add
       {| call_nowId := 30; call_nowTs := 30;
          call_feature := "study-buddy"; call_messages := Sample.exchange |};
     Delete "polisher" "3"]) by (repeat constructor; discriminate).
  split; [exact H|].
  exact (mutations_of_other_features_do_not_interfere _ "chat"
           Sample.full_store H).
Defined.

Lemma length_sessions_apply f (h : Histories) (o : Op) :
  length (sessions f h) ≤ 20 → length (sessions f (apply h o)) ≤ 20.
Proof.
  intros Hlen. destruct (decide (f = op_feature o)) as [-> | Hne];
    [|by rewrite sessions_apply_ne].
  destruct o as [c | g i | g]; simpl in *.
  - rewrite sessions_step.
    destruct (if decide _ then created c else None); [|done].
    rewrite length_take. lia.
  - rewrite sessions_delete_eq.
    pose proof (length_filter (λ r, id r ≠ i) (sessions g h)). lia.
  - unfold clearHistory. rewrite sessions_insert_eq. simpl. lia.
Qed.

(** The bound of 20 records per feature is kept by every sequence of
    [addHistory], [deleteHistory] and [clearHistory], in any order. *)
Theorem at_most_20_under_all_mutations (ops : list Op) f (h : Histories) :
  length (sessions f h) ≤ 20 →
  length (sessions f (run_ops ops h)) ≤ 20.
Proof.
  revert h. unfold run_ops.
  induction ops as [|o ops IH]; intros h Hlen; [done|].
  simpl. by apply IH, length_sessions_apply.
Qed.

Lemma at_most_20_under_all_mutations_witness :
  length (sessions "chat" Sample.full_store) ≤ 20
  ∧ length
      (sessions "chat"
         (run_ops
            [Add (Sample.call_at 21 Sample.exchange); Delete "chat" "7";
             Add (Sample.call_at 22 Sample.exchange);
             Add (Sample.call_at 23 Sample.exchange)]
            Sample.full_store)) ≤ 20.
Proof.
  assert (H : length (sessions "chat" Sample.full_store) ≤ 20)
    by (vm_compute; lia).
  split; [exact H|].
  exact (at_most_20_under_all_mutations _ "chat" Sample.full_store H).
Defined.

(** *** What every stored record looks like *)

Lemma first_user_of_filter (msgs : list Message) m0 rest :
  filter (λ m, role m = user) msgs = m0 :: rest → first_user_turn msgs m0.
Proof.
  induction msgs as [|m msgs IH]; [done|].
  rewrite filter_cons. destruct (decide (role m = user)) as [Hu | Hn].
  - intros [= -> _]. exists [], msgs.
    split; [done|]. split; [constructor | done].
  - intros (pre & post & -> & Hpre & Hm0)%IH.
    exists (m :: pre), post. split; [done|]. split; [|done].
    by constructor.
Qed.

Lemma newHistory_well_formed nowId nowTs f msgs r :
  newHistory nowId nowTs f msgs = Some r → well_formed f r.
Proof.
  unfold newHistory. destruct (length msgs =? 0)%nat; [done|].
  destruct (filter _ msgs) as [|m0 rest] eqn:Hfilter; [done|].
  intros [= <-]. split; [done|]. exists m0. simpl.
  split; [by eapply first_user_of_filter|].
  split; [apply substring_0_first_chars|].
  eexists _, _. split; [apply substring_0_first_chars | done].
Qed.

Lemma well_formed_apply (h : Histories) (o : Op) :
  (∀ f, Forall (well_formed f) (sessions f h)) →
  ∀ f, Forall (well_formed f) (sessions f (apply h o)).
Proof.
  intros Hwf f. destruct (decide (f = op_feature o)) as [-> | Hne];
    [|by rewrite sessions_apply_ne].
  destruct o as [c | g i | g]; simpl in *.
  - rewrite sessions_step. rewrite decide_True by done.
    destruct (created c) as [r|] eqn:Hr; [|done].
    apply Forall_take. constructor; [|done].
    by eapply newHistory_well_formed.
  - rewrite sessions_delete_eq. apply Forall_forall.
    intros r [_ Hr]%list_elem_of_filter.
    by eapply Forall_forall in Hr.
  - unfold clearHistory. rewrite sessions_insert_eq. constructor.
Qed.

(** In a store built from the empty one by any sequence of mutations,
    every record listed under a feature names that feature, holds a
    transcript with a USER turn, has as title the first 30 characters of
    its first USER turn, and a preview that starts with the first 50. *)
Theorem stored_records_are_well_formed (ops : list Op) f :
  Forall (well_formed f) (sessions f (run_ops ops ∅)).
Proof.
  assert (Hgen : ∀ ops (h : Histories),
            (∀ f, Forall (well_formed f) (sessions f h)) →
            ∀ f, Forall (well_formed f) (sessions f (run_ops ops h))).
  { clear. unfold run_ops. induction ops as [|o ops IH]; intros h Hwf f;
      [done|]. simpl. by apply IH, well_formed_apply. }
  apply Hgen. intros g. unfold sessions. rewrite lookup_empty. constructor.
Qed.

End HistoryOpsProps.

(** * Properties of the persistence of the store *)

Module PersistenceProps.

Import History Provider.



(** A stored blob that does not parse is lost: the save effect leaves it
    alone while the provider is not hydrated, the mount logs the error and
    keeps the empty mapping, and the save effect of the hydrated provider
    then replaces the blob by the serialisation of the empty mapping. *)
Theorem corrupt_blob_is_replaced_by_the_empty_store
    (JSON_parse : string → Js.Result Histories)
    (JSON_stringify : Histories → string) (blob : string) (e : Js.Exn) :
  blob ≠ "" →
  JSON_parse blob = Js.Throw e →
  save JSON_stringify initial (Some blob) = Some blob
  ∧ ∃ s',
      mount JSON_parse (Some blob) initial = Js.Ok s'
      ∧ console s' = [e]
      ∧ histories s' = ∅
      ∧ save JSON_stringify s' (Some blob) = Some (JSON_stringify ∅).
Proof.
  intros Hne Hthrow. split; [reflexivity|].
  unfold mount. destruct blob as [|c blob]; [done|]. simpl.
  rewrite Hthrow. simpl. eexists. split; [reflexivity|]. by repeat split.
Qed.

Lemma corrupt_blob_witness :
  save Sample.stringify_empty initial (Some "{corrupt") = Some "{corrupt"
  ∧ ∃ s',
      mount Sample.parse_fails (Some "{corrupt") initial = Js.Ok s'
      ∧ histories s' = ∅
      ∧ save Sample.stringify_empty s' (Some "{corrupt") = Some "{}".
Proof.
  destruct (corrupt_blob_is_replaced_by_the_empty_store Sample.parse_fails
              Sample.stringify_empty "{corrupt" _ ltac:(discriminate) eq_refl)
    as (Hfirst & s' & Hs' & _ & Hh & Hsave).
  split; [exact Hfirst|]. exists s'.
  split; [exact Hs'|]. split; [exact Hh | exact Hsave].
Defined.

End PersistenceProps.

(** * Further properties of the chat page *)

Module ChatPageProps.

Import Chat ChatSpec ChatProps.

(** *** Files *)

Lemma filter_index_from_all {A} (p : nat → bool) (i : nat) (l : list A) :
  (∀ j, i ≤ j → p j = true) → Js.filter_index_from p i l = l.
Proof.
  revert i. induction l as [|x l IH]; intros i Hp; [done|]. simpl.
  rewrite Hp by lia. f_equal. apply IH. intros j Hj. apply Hp. lia.
Qed.

Lemma filter_index_from_delete {A} (index i : nat) (l : list A) :
  Js.filter_index_from (λ j, negb (j =? i + index)%nat) i l = delete index l.
Proof.
  revert index i. induction l as [|x l IH]; intros index i; [done|].
  simpl. destruct index as [|index].
  - rewrite Nat.add_0_r, Nat.eqb_refl. simpl.
    apply filter_index_from_all. intros j Hj.
    apply negb_true_iff, Nat.eqb_neq. lia.
  - replace (i =? i + S index)%nat with false
      by (symmetry; apply Nat.eqb_neq; lia).
    simpl. f_equal. rewrite <- (IH index (S i)).
    by replace (S i + index) with (i + S index) by lia.
Qed.

Lemma removeFile_delete (index : nat) (s : State) :
  files (removeFile index s) = delete index (files s).
Proof. unfold removeFile. simpl. apply (filter_index_from_delete index 0). Qed.

(** [removeFile] takes out exactly the file at the index and keeps the
    others in order; an index past the end removes nothing. *)
Theorem removeFile_removes_one_position (index : nat) (s : State) :
  (index < length (files s) →
     files (removeFile index s)
     = take index (files s) ++ drop (S index) (files s)
     ∧ length (files (removeFile index s)) = length (files s) - 1)
  ∧ (length (files s) ≤ index → files (removeFile index s) = files s)
  ∧ messages (removeFile index s) = messages s
  ∧ input (removeFile index s) = input s.
Proof.
  rewrite removeFile_delete. split; [|split; [|done]].
  - intros Hlt. split; [by rewrite delete_take_drop|].
    rewrite length_delete; [done|]. by apply lookup_lt_is_Some_2.
  - intros Hge. rewrite delete_take_drop.
    rewrite take_ge, drop_ge by lia. by rewrite app_nil_r.
Qed.

(** [handleFileSelect] takes a selection whole or not at all: when the
    total stays within 10 the selected files are appended in order and the
    error is untouched; when it would exceed 10 no file is added and the
    error names the limit. *)
Theorem handleFileSelect_all_or_nothing
    (selectedFiles : list File) (s : State) :
  (length (files s) + length selectedFiles ≤ 10 →
     files (handleFileSelect selectedFiles s) = files s ++ selectedFiles
     ∧ error (handleFileSelect selectedFiles s) = error s)
  ∧ (10 < length (files s) + length selectedFiles →
     files (handleFileSelect selectedFiles s) = files s
     ∧ error (handleFileSelect selectedFiles s) = MSG_TOO_MANY).
Proof.
  unfold handleFileSelect. split; intros H.
  - by replace (10 <? _)%nat with false by (symmetry; apply Nat.ltb_ge; lia).
  - by replace (10 <? _)%nat with true by (symmetry; apply Nat.ltb_lt; lia).
Qed.

(** *** The state that [handleSend] leaves *)

Lemma start_valid_explicit (s : State) :
  valid s →
  handleSend_start s =
    Pending
      {| messages := messages s ++ [userMessage s]; input := "";
         loading := true; error := ""; advancedMode := advancedMode s;
         files := []; selectedKb := selectedKb s;
         abortControllerRef := Some {| aborted := false |} |}
      {| c_messages := messages s; c_input := input s;
         c_updatedMessages := messages s ++ [userMessage s] |}
      ((if advancedMode s && (0 <? length (files s))%nat
        then map FilePart (files s) else [])
       ++ [RequestPart
             {| text := input s; history := messages s;
                knowledge_base :=
                  if Js.truthy (selectedKb s) then Some (selectedKb s)
                  else None |}]).
Proof.
  intros H%guard_valid. unfold handleSend_start. by rewrite H.
Qed.

Lemma settled_frame k (r : Settled) (s : State) :
  input (handleSend_settled k r s).1 = input s
  ∧ files (handleSend_settled k r s).1 = files s
  ∧ advancedMode (handleSend_settled k r s).1 = advancedMode s
  ∧ selectedKb (handleSend_settled k r s).1 = selectedKb s
  ∧ abortControllerRef (handleSend_settled k r s).1 = abortControllerRef s
  ∧ loading (handleSend_settled k r s).1 = false.
Proof.
  unfold handleSend_settled.
  destruct r as [e | ok [data | e]]; simpl.
  - by destruct (String.eqb (Js.name e) "AbortError").
  - by destruct (negb ok || negb (data_success data)).
  - by destruct (String.eqb (Js.name e) "AbortError").
Qed.

Lemma settled_messages k (r : Settled) (s : State) :
  (messages (handleSend_settled k r s).1 = messages s
   ∧ (handleSend_settled k r s).2 = [])
  ∨ (messages (handleSend_settled k r s).1 = c_messages k
     ∧ (handleSend_settled k r s).2 = [])
  ∨ ∃ a,
      role a = assistant
      ∧ messages (handleSend_settled k r s).1 = c_updatedMessages k ++ [a]
      ∧ (handleSend_settled k r s).2
        = [{| hc_feature := "chat";
              hc_messages := c_updatedMessages k ++ [a] |}].
Proof.
  unfold handleSend_settled.
  destruct r as [e | ok [data | e]]; simpl.
  - destruct (String.eqb (Js.name e) "AbortError"); [right; left | left];
      done.
  - destruct (negb ok || negb (data_success data)); simpl.
    + by left.
    + right; right. eexists. split; [|split; reflexivity]. reflexivity.
  - destruct (String.eqb (Js.name e) "AbortError"); [right; left | left];
      done.
Qed.

Lemma submit_cases (s : State) (cancel : bool) (net : Settled) :
  (messages (submit s cancel net).1 = messages s
   ∧ (submit s cancel net).2 = [])
  ∨ (messages (submit s cancel net).1 = messages s ++ [userMessage s]
     ∧ (submit s cancel net).2 = [])
  ∨ ∃ a,
      role a = assistant
      ∧ messages (submit s cancel net).1
        = messages s ++ [userMessage s; a]
      ∧ (submit s cancel net).2
        = [{| hc_feature := "chat";
              hc_messages := messages s ++ [userMessage s; a] |}].
Proof.
  destruct (classic_valid s) as [Hvalid | Hinvalid].
  - destruct (submit_valid s cancel net Hvalid) as (s' & Hmsgs & ->).
    set (k := {| c_messages := messages s; c_input := input s;
                 c_updatedMessages := messages s ++ [userMessage s] |}).
    set (r := if cancel then FetchRejected AbortError else net).
    set (t := if cancel then handleCancel s' else s').
    assert (Ht : messages t = messages s ++ [userMessage s]).
    { subst t. destruct cancel; [|done]. unfold handleCancel.
      by destruct (abortControllerRef s'). }
    destruct (settled_messages k r t) as [[-> ->] | [[-> ->] | (a & Ha & -> & ->)]].
    + right; left. by rewrite Ht.
    + by left.
    + right; right. exists a. simpl. by rewrite <- !app_assoc.
  - left. unfold submit. by rewrite start_invalid.
Qed.

(** The transcript only grows under [handleSend]: whatever the input, the
    cancellation and the network do, the transcript before the call is a
    prefix of the transcript after it, and at most two turns are added. *)
Theorem handleSend_only_appends (s : State) (cancel : bool) (net : Settled) :
  messages s `prefix_of` messages (submit s cancel net).1
  ∧ length (messages (submit s cancel net).1) ≤ length (messages s) + 2.
Proof.
  destruct (submit_cases s cancel net)
    as [[-> _] | [[-> _] | (a & _ & -> & _)]].
  - split; [done | lia].
  - split; [by apply prefix_app_r|]. rewrite length_app. simpl. lia.
  - split; [by apply prefix_app_r|]. rewrite length_app. simpl. lia.
Qed.

Lemma handleCancel_frame (s : State) :
  messages (handleCancel s) = messages s
  ∧ input (handleCancel s) = input s
  ∧ loading (handleCancel s) = loading s
  ∧ error (handleCancel s) = error s
  ∧ advancedMode (handleCancel s) = advancedMode s
  ∧ files (handleCancel s) = files s
  ∧ selectedKb (handleCancel s) = selectedKb s.
Proof. unfold handleCancel. by destruct (abortControllerRef s). Qed.

Lemma submit_valid_fields (s : State) (cancel : bool) (net : Settled) :
  valid s →
  loading (submit s cancel net).1 = false
  ∧ input (submit s cancel net).1 = ""
  ∧ files (submit s cancel net).1 = []
  ∧ advancedMode (submit s cancel net).1 = advancedMode s
  ∧ selectedKb (submit s cancel net).1 = selectedKb s.
Proof.
  intros Hvalid. unfold submit. rewrite (start_valid_explicit s Hvalid).
  match goal with
  | |- context [handleSend_settled ?k ?r ?t] =>
      destruct (settled_frame k r t) as (-> & -> & -> & -> & _ & ->);
      destruct (handleCancel_frame
                  {| messages := messages s ++ [userMessage s]; input := "";
                     loading := true; error := "";
                     advancedMode := advancedMode s; files := [];
                     selectedKb := selectedKb s;
                     abortControllerRef := Some {| aborted := false |} |})
        as (_ & Hi & _ & _ & Ha & Hf & Hk)
  end.
  by destruct cancel.
Qed.

(** Every submission that passes the guard ends with the pending indicator
    cleared, the text area emptied and the attachments dropped, whether the
    request succeeded, failed or was canceled: a cancellation restores the
    transcript but not what was typed or attached. *)
Theorem handleSend_clears_input_files_and_loading
    (s : State) (cancel : bool) (net : Settled) :
  valid s →
  loading (submit s cancel net).1 = false
  ∧ input (submit s cancel net).1 = ""
  ∧ files (submit s cancel net).1 = []
  ∧ advancedMode (submit s cancel net).1 = advancedMode s
  ∧ selectedKb (submit s cancel net).1 = selectedKb s.
Proof. apply submit_valid_fields. Qed.

Lemma handleSend_clears_witness :
  valid (Sample.chat_idle "hi" [Sample.pdf])
  ∧ input
      (submit (Sample.chat_idle "hi" [Sample.pdf]) true
         (Fetched true (Js.Ok Sample.chat_ok))).1 = ""
  ∧ files
      (submit (Sample.chat_idle "hi" [Sample.pdf]) true
         (Fetched true (Js.Ok Sample.chat_ok))).1 = [].
Proof.
  assert (Hv : valid (Sample.chat_idle "hi" [Sample.pdf]))
    by (left; discriminate).
  split; [exact Hv|].
  destruct (handleSend_clears_input_files_and_loading _ true
              (Fetched true (Js.Ok Sample.chat_ok)) Hv) as (_ & Hi & Hf & _).
  split; [exact Hi | exact Hf].
Defined.

(** A submission that the guard rejects changes nothing but the error
    message and sends nothing: transcript, input, files and the pending
    indicator stay as they were. *)
Theorem rejected_submission_changes_only_error
    (s : State) (cancel : bool) (net : Settled) :
  ¬ valid s →
  submit s cancel net = (setError MSG_EMPTY s, [])
  ∧ handleSend_start s = Invalid (setError MSG_EMPTY s)
  ∧ Js.trim (input s) = "" ∧ files s = [].
Proof.
  intros Hinvalid. unfold submit. rewrite (start_invalid s Hinvalid).
  split; [done|]. split; [done|].
  unfold valid in Hinvalid.
  split.
  - destruct (Js.trim (input s)); [done|]. exfalso. apply Hinvalid. by left.
  - destruct (files s); [done|]. exfalso. apply Hinvalid. by right.
Qed.

Lemma rejected_submission_witness :
  ¬ valid (Sample.chat_idle "   " [])
  ∧ submit (Sample.chat_idle "   " []) false
      (Fetched true (Js.Ok Sample.chat_ok))
    = (setError MSG_EMPTY (Sample.chat_idle "   " []), []).
Proof.
  assert (Hi : ¬ valid (Sample.chat_idle "   " [])).
  { intros [H | H]; [by apply H; vm_compute | by apply H]. }
  split; [exact Hi|].
  exact (proj1 (rejected_submission_changes_only_error _ false
                  (Fetched true (Js.Ok Sample.chat_ok)) Hi)).
Defined.

(** *** The outbound request *)

Lemma requests_of_files (l : list File) :
  omap (λ p, match p with RequestPart r => Some r | _ => None end)
    (map FilePart l) = [].
Proof. induction l as [|f l IH]; [done|]. exact IH. Qed.

Lemma files_of_files (l : list File) : files_of (map FilePart l) = l.
Proof.
  induction l as [|f l IH]; [done|].
  change (f :: files_of (map FilePart l) = f :: l). by f_equal.
Qed.

Lemma files_of_app (l1 l2 : list FormPart) :
  files_of (l1 ++ l2) = files_of l1 ++ files_of l2.
Proof. apply omap_app. Qed.

(** The form of a chat request has exactly one request part: its text is
    the raw input and its history is the transcript before the new USER
    turn.  The attached files travel with it only in advanced mode; with
    advanced mode off the form carries no file, although the USER turn
    still announces them. *)
Theorem chat_request_contents (s : State) :
  valid s →
  ∃ s' k formData r,
    handleSend_start s = Pending s' k formData
    ∧ request_of formData = Some r
    ∧ length (omap (λ p, match p with RequestPart r => Some r | _ => None end)
                formData) = 1
    ∧ text r = input s
    ∧ history r = messages s
    ∧ files_of formData = (if advancedMode s then files s else [])
    ∧ (advancedMode s = false → files s ≠ [] →
       files_of formData = []
       ∧ last (messages s')
         = Some {| role := user;
                   content := "[" +:+ pretty (length (files s))
                              +:+ " tệp đính kèm] " +:+ input s |}).
Proof.
  intros Hvalid. rewrite (start_valid_explicit s Hvalid).
  eexists _, _, _, _. split; [reflexivity|].
  unfold request_of. rewrite files_of_app, !omap_app.
  destruct (advancedMode s) eqn:Hadv; simpl.
  - destruct (0 <? length (files s))%nat eqn:Hpos.
    + rewrite requests_of_files, files_of_files. simpl. rewrite app_nil_r.
      do 5 (split; [reflexivity|]). done.
    + simpl. do 4 (split; [reflexivity|]).
      split; [|done]. destruct (files s); [done|]. done.
  - do 5 (split; [reflexivity|]). intros _ Hfiles.
    split; [done|]. rewrite last_snoc. f_equal.
    unfold userMessage. by destruct (files s).
Qed.

Lemma chat_request_contents_witness :
  valid (Sample.chat_idle "hi" [Sample.pdf])
  ∧ ∃ s' k formData,
      handleSend_start (Sample.chat_idle "hi" [Sample.pdf])
      = Pending s' k formData
      ∧ files_of formData = [Sample.pdf].
Proof.
  assert (Hv : valid (Sample.chat_idle "hi" [Sample.pdf]))
    by (left; discriminate).
  split; [exact Hv|].
  destruct (chat_request_contents _ Hv)
    as (s' & k & fd & r & Hstart & _ & _ & _ & _ & Hfiles & _).
  exists s', k, fd. split; [exact Hstart | exact Hfiles].
Defined.

(** *** [handleCancel] *)

(** [handleCancel] touches nothing but the abort controller and is
    idempotent; pressed while no request is pending it does not disturb
    the next submission, which installs a fresh controller. *)
Theorem stale_cancel_is_harmless (s : State) :
  handleCancel (handleCancel s) = handleCancel s
  ∧ messages (handleCancel s) = messages s
  ∧ input (handleCancel s) = input s
  ∧ error (handleCancel s) = error s
  ∧ files (handleCancel s) = files s
  ∧ (abortControllerRef s = None → handleCancel s = s)
  ∧ (valid s →
     ∀ cancel net, submit (handleCancel s) cancel net = submit s cancel net).
Proof.
  split.
  { unfold handleCancel. destruct (abortControllerRef s) eqn:H; simpl.
    - done.
    - by rewrite H. }
  destruct (handleCancel_frame s) as (Hm & Hi & Hl & He & Ha & Hf & Hk).
  do 4 (split; [done|]). split.
  { intros H. unfold handleCancel. by rewrite H. }
  intros Hvalid cancel net.
  assert (Hvalid' : valid (handleCancel s)).
  { unfold valid. by rewrite Hi, Hf. }
  unfold submit.
  rewrite (start_valid_explicit s Hvalid).
  rewrite (start_valid_explicit (handleCancel s) Hvalid').
  unfold userMessage. by rewrite Hm, Hi, Ha, Hf, Hk.
Qed.

(** *** Sequences of events *)

Lemma submit_files (s : State) (cancel : bool) (net : Settled) :
  length (files (submit s cancel net).1) ≤ length (files s).
Proof.
  destruct (classic_valid s) as [Hvalid | Hinvalid].
  - destruct (submit_valid_fields s cancel net Hvalid) as (_ & _ & -> & _).
    simpl. lia.
  - unfold submit. by rewrite start_invalid.
Qed.

Lemma react_files (s : State) (e : Event) :
  length (files s) ≤ 10 → length (files (react s e).1) ≤ 10.
Proof.
  intros Hlen. destruct e as [txt | kb | | l | i | cancel net | | msgs];
    cbn [react fst]; try (simpl; done).
  - unfold handleFileSelect.
    destruct (10 <? length (files s) + length l)%nat eqn:H; simpl; [done|].
    apply Nat.ltb_ge in H. by rewrite length_app.
  - rewrite removeFile_delete.
    pose proof (sublist_length _ _ (sublist_delete (files s) i)). lia.
  - pose proof (submit_files s cancel net). lia.
  - by destruct (handleCancel_frame s) as (_ & _ & _ & _ & _ & -> & _).
Qed.

(** The page never holds more than 10 attached files: the bound is kept by
    every sequence of typing, selecting and removing files, toggling the
    advanced mode, sending, canceling and loading a stored transcript. *)
Theorem at_most_10_files (events : list Event) (s : State) :
  length (files s) ≤ 10 → length (files (run events s).1) ≤ 10.
Proof.
  revert s. induction events as [|e events IH]; intros s Hlen; [done|].
  simpl. pose proof (react_files s e Hlen) as He.
  destruct (react s e) as [s1 calls1]. specialize (IH s1 He).
  by destruct (run events s1) as [s2 calls2].
Qed.

Lemma at_most_10_files_witness :
  length (files (Sample.chat_idle "hi" [])) ≤ 10
  ∧ length
      (files
         (run [FilesSelected (replicate 6 Sample.pdf);
               FilesSelected (replicate 6 Sample.pdf);
               FileRemoved 2;
               FilesSelected (replicate 5 Sample.pdf)]
            (Sample.chat_idle "hi" [])).1) ≤ 10.
Proof.
  assert (H : length (files (Sample.chat_idle "hi" [])) ≤ 10)
    by (simpl; lia).
  split; [exact H|]. exact (at_most_10_files _ _ H).
Defined.

Lemma react_calls (s : State) (e : Event) :
  Forall (λ c, hc_feature c = "chat" ∧ ends_with_exchange (hc_messages c))
    (react s e).2.
Proof.
  destruct e as [txt | kb | | l | i | cancel net | | msgs]; simpl;
    try by constructor.
  destruct (submit_cases s cancel net)
    as [[_ ->] | [[_ ->] | (a & Ha & _ & ->)]]; try by constructor.
  constructor; [|constructor]. split; [done|].
  by exists (messages s), (userMessage s), a.
Qed.

(** Whatever the user does on the chat page, every transcript that the
    page passes to [addHistory] is filed under the feature ["chat"] and
    ends with a USER turn followed by the ASSISTANT turn that answers it:
    no failed, canceled or rejected submission is ever saved. *)
Theorem chat_saves_only_answered_exchanges (events : list Event) (s : State) :
  Forall (λ c, hc_feature c = "chat" ∧ ends_with_exchange (hc_messages c))
    (run events s).2.
Proof.
  revert s. induction events as [|e events IH]; intros s; [constructor|].
  simpl. pose proof (react_calls s e) as He.
  destruct (react s e) as [s1 calls1]. specialize (IH s1).
  destruct (run events s1) as [s2 calls2]. simpl in *.
  by apply Forall_app.
Qed.

(** *** From the page to the store and back *)

(** A successful submission can be restored: the transcript that the page
    passes to [addHistory] is filed first in the ["chat"] list, is what the
    side bar lists first on [/chat], is found by [loadHistory] under the
    new id, and clicking it hands [handleLoadHistory] the very transcript
    the page showed after the submission. *)
Theorem saved_exchange_can_be_restored
    (s page : State) (net : Settled) (data : Data)
    (nowId nowTs : Z) (h : History.Histories) :
  valid s → success net data →
  ∃ c u r,
    (submit s false net).2 = [c]
    ∧ History.addHistory nowId nowTs (hc_feature c) (hc_messages c) = Some u
    ∧ History.loadHistory (u h) "chat" (pretty nowId) = Some r
    ∧ head (RightSidebar.currentHistories "/chat" (u h)) = Some r
    ∧ messages
        (RightSidebar.handleLoadHistory (Some handleLoadHistory)
           (History.messages r) page)
      = messages (submit s false net).1.
Proof.
  intros Hvalid [-> Hok].
  destruct (submit_valid s false (Fetched true (Js.Ok data)) Hvalid)
    as (s' & Hmsgs & ->).
  rewrite settled_success by done. simpl.
  set (msgs := (messages s ++ [userMessage s]) ++
                 [{| role := assistant; content := data_response data |}]).
  destruct (HistoryOpsProps.newHistory_some_user nowId nowTs "chat" msgs
              (userMessage s)) as (r & Hr & Hrm & Hrf & Hrid); [|done|].
  { subst msgs. rewrite !elem_of_app, list_elem_of_singleton.
    by left; right. }
  destruct (HistoryOpsProps.addHistory_load_core nowId nowTs "chat" msgs r h
              Hr) as (u & Hu & Hload & Hhead).
  eexists _, u, r. split; [reflexivity|]. simpl.
  split; [exact Hu|]. rewrite <- Hrid. split; [exact Hload|].
  split; [exact Hhead | exact Hrm].
Qed.

Lemma saved_exchange_witness :
  valid (Sample.chat_idle "hi" [])
  ∧ ∃ c u r,
      (submit (Sample.chat_idle "hi" []) false
         (Fetched true (Js.Ok Sample.chat_ok))).2 = [c]
      ∧ History.addHistory 5 5 (hc_feature c) (hc_messages c) = Some u
      ∧ History.loadHistory (u Sample.full_store) "chat" "5" = Some r.
Proof.
  assert (Hv : valid (Sample.chat_idle "hi" [])) by (left; discriminate).
  assert (Hs : success (Fetched true (Js.Ok Sample.chat_ok)) Sample.chat_ok)
    by (split; reflexivity).
  split; [exact Hv|].
  destruct (saved_exchange_can_be_restored _ (Sample.chat_idle "" []) _ _
              5 5 Sample.full_store Hv Hs)
    as (c & u & r & Hc & Hu & Hload & _).
  exists c, u, r. split; [exact Hc|]. split; [exact Hu | exact Hload].
Defined.

End ChatPageProps.

(** * Further properties of the study-buddy page *)

Module StudyBuddyPageProps.

Import StudyBuddy StudySpec.

Lemma study_guard_valid (s : State) :
  valid s ↔
  negb (Js.truthy (Js.trim (input s))) && (length (files s) =? 0)%nat = false.
Proof.
  unfold valid. rewrite andb_false_iff, negb_false_iff.
  rewrite ChatProps.truthy_true. by rewrite ChatProps.length_eqb_0.
Qed.

Lemma study_start_valid_explicit (s : State) :
  valid s →
  handleSend_start s =
    Pending
      {| messages := messages s ++ [userMessage s]; input := "";
         files := []; loading := true; error := "";
         selectedKb := selectedKb s;
         abortControllerRef := Some {| aborted := false |} |}
      {| c_messages := messages s;
         c_updatedMessages := messages s ++ [userMessage s] |}
      (if (0 <? length (files s))%nat then map FilePart (files s)
       else if Js.truthy (Js.trim (input s)) then
         [RequestPart
            {| text := input s;
               knowledge_base :=
                 if Js.truthy (selectedKb s) then Some (selectedKb s)
                 else None |}]
       else []).
Proof.
  intros H%study_guard_valid. unfold handleSend_start. by rewrite H.
Qed.

Lemma study_submit_valid (s : State) (cancel : bool) (net : Settled) :
  valid s →
  ∃ s' : State,
    messages s' = messages s ++ [userMessage s]
    ∧ error s' = ""
    ∧ submit s cancel net =
        handleSend_settled
          {| c_messages := messages s;
             c_updatedMessages := messages s ++ [userMessage s] |}
          (if cancel then FetchRejected AbortError else net) s'.
Proof.
  intros Hvalid. unfold submit. rewrite (study_start_valid_explicit s Hvalid).
  destruct cancel; eexists; (split; [|split; [|reflexivity]]); done.
Qed.

(** On the study-buddy page a submission that passes the guard and whose
    request returns a summary appends the USER turn and then one ASSISTANT
    turn holding the summary, and passes exactly that transcript to
    [addHistory] under the feature ["study-buddy"]. *)
Theorem study_success_appends_summary (s : State) (data : Data) :
  valid s →
  messages (submit s false (Fetched true (Js.Ok data))).1
  = messages s
      ++ [userMessage s;
          {| role := assistant; content := data_summary data |}]
  ∧ (submit s false (Fetched true (Js.Ok data))).2
    = [{| hc_feature := "study-buddy";
          hc_messages :=
            messages s
              ++ [userMessage s;
                  {| role := assistant; content := data_summary data |}] |}]
  ∧ error (submit s false (Fetched true (Js.Ok data))).1 = ""
  ∧ loading (submit s false (Fetched true (Js.Ok data))).1 = false.
Proof.
  intros Hvalid.
  destruct (study_submit_valid s false (Fetched true (Js.Ok data)) Hvalid)
    as (s' & Hm & He & ->).
  unfold handleSend_settled. simpl. by rewrite <- !app_assoc.
Qed.

Lemma study_success_witness :
  valid (Sample.study_idle "please summarise" [])
  ∧ messages
      (submit (Sample.study_idle "please summarise" []) false
         (Fetched true (Js.Ok Sample.study_summary))).1
    = [Sample.greeting;
       {| role := user; content := "please summarise" |};
       {| role := assistant; content := "short" |}].
Proof.
  assert (Hv : valid (Sample.study_idle "please summarise" []))
    by (left; discriminate).
  split; [exact Hv|].
  exact (proj1 (study_success_appends_summary _ Sample.study_summary Hv)).
Defined.

(** On the study-buddy page a cancellation while the request is pending
    restores the transcript of before the submission, sets the
    cancellation message and saves nothing, whatever the network would
    have delivered. *)
Theorem study_cancel_restores_transcript (s : State) (net : Settled) :
  valid s →
  messages (submit s true net).1 = messages s
  ∧ error (submit s true net).1 = MSG_CANCELED
  ∧ loading (submit s true net).1 = false
  ∧ (submit s true net).2 = [].
Proof.
  intros Hvalid.
  by destruct (study_submit_valid s true net Hvalid) as (s' & Hm & He & ->).
Qed.

Lemma study_cancel_witness :
  valid (Sample.study_idle "please summarise" [])
  ∧ messages
      (submit (Sample.study_idle "please summarise" []) true
         (Fetched true (Js.Ok Sample.study_summary))).1
    = [Sample.greeting].
Proof.
  assert (Hv : valid (Sample.study_idle "please summarise" []))
    by (left; discriminate).
  split; [exact Hv|].
  exact (proj1 (study_cancel_restores_transcript _
                  (Fetched true (Js.Ok Sample.study_summary)) Hv)).
Defined.

(** On the study-buddy page every failure that is not a cancellation (a
    response that is not [ok], a rejected [fetch], a body that cannot be
    read) keeps the USER turn, saves nothing and shows one and the same
    generic message: neither the message thrown for a bad status nor the
    text of the thrown error reaches the user. *)
Theorem study_failure_shows_only_the_generic_message
    (s : State) (net : Settled) :
  valid s → failure net →
  messages (submit s false net).1 = messages s ++ [userMessage s]
  ∧ error (submit s false net).1 = MSG_GENERIC
  ∧ loading (submit s false net).1 = false
  ∧ (submit s false net).2 = []
  ∧ MSG_GENERIC ≠ MSG_SUMMARY_FAILED.
Proof.
  intros Hvalid Hfail.
  destruct (study_submit_valid s false net Hvalid) as (s' & Hm & He & ->).
  unfold handleSend_settled.
  destruct Hfail as [json | e Hne | e Hne]; simpl.
  - by rewrite Hm.
  - rewrite (ChatProps.eqb_abort_false e Hne). simpl. by rewrite Hm.
  - rewrite (ChatProps.eqb_abort_false e Hne). simpl. by rewrite Hm.
Qed.

Lemma study_failure_witness :
  valid (Sample.study_idle "please summarise" [])
  ∧ failure (FetchRejected Sample.network_down)
  ∧ error
      (submit (Sample.study_idle "please summarise" []) false
         (FetchRejected Sample.network_down)).1
    = MSG_GENERIC.
Proof.
  assert (Hv : valid (Sample.study_idle "please summarise" []))
    by (left; discriminate).
  assert (Hf : failure (FetchRejected Sample.network_down))
    by (constructor; discriminate).
  split; [exact Hv|]. split; [exact Hf|].
  exact (proj1 (proj2
           (study_failure_shows_only_the_generic_message _ _ Hv Hf))).
Defined.

(** The form of a study-buddy request is never empty and never carries the
    transcript: without files it is the single request part with the raw
    input as text, and replacing the transcript by any other leaves the
    form unchanged. *)
Theorem study_request_contents (s : State) :
  valid s →
  ∃ s' k formData,
    handleSend_start s = Pending s' k formData
    ∧ formData ≠ []
    ∧ (files s = [] →
       ∃ kb, formData = [RequestPart {| text := input s;
                                        knowledge_base := kb |}]
             ∧ (kb = None ↔ selectedKb s = ""))
    ∧ ∀ msgs, ∃ t' k',
        handleSend_start (setMessages msgs s) = Pending t' k' formData.
Proof.
  intros Hvalid. rewrite (study_start_valid_explicit s Hvalid).
  eexists _, _, _. split; [reflexivity|].
  assert (Hvalid' : ∀ msgs, valid (setMessages msgs s)) by done.
  split; [|split].
  - destruct Hvalid as [Htxt | Hfiles].
    + destruct (files s); simpl; [|done].
      apply ChatProps.truthy_true in Htxt. by rewrite Htxt.
    + by destruct (files s).
  - intros Hnofiles. rewrite Hnofiles. simpl.
    destruct Hvalid as [Htxt | Hfiles]; [|done].
    apply ChatProps.truthy_true in Htxt. rewrite Htxt.
    eexists. split; [reflexivity|].
    destruct (selectedKb s); simpl; split; done.
  - intros msgs. rewrite (study_start_valid_explicit _ (Hvalid' msgs)).
    by eexists _, _.
Qed.

Lemma study_request_witness :
  valid (Sample.study_idle "please summarise" [])
  ∧ ∃ s' k formData,
      handleSend_start (Sample.study_idle "please summarise" [])
      = Pending s' k formData
      ∧ formData ≠ [].
Proof.
  assert (Hv : valid (Sample.study_idle "please summarise" []))
    by (left; discriminate).
  split; [exact Hv|].
  destruct (study_request_contents _ Hv) as (s' & k & fd & Hs & Hne & _).
  exists s', k, fd. split; [exact Hs | exact Hne].
Defined.

(** The file input of the study-buddy page adds one file at a time and
    keeps at most 10: below 10 the file is appended, at 10 or more (and
    when no file was picked) the state is left exactly as it was, without
    any error message. *)
Theorem study_addFile_keeps_at_most_10 (newFile : option File) (s : State) :
  (length (files s) ≤ 10 → length (files (addFile newFile s)) ≤ 10)
  ∧ (∀ f, newFile = Some f → length (files s) < 10 →
       files (addFile newFile s) = files s ++ [f])
  ∧ (10 ≤ length (files s) → addFile newFile s = s)
  ∧ (newFile = None → addFile newFile s = s)
  ∧ error (addFile newFile s) = error s.
Proof.
  unfold addFile. destruct newFile as [f|].
  - destruct (length (files s) <? 10)%nat eqn:Hlt.
    + apply Nat.ltb_lt in Hlt. simpl. rewrite length_app. simpl.
      repeat split; try done; try lia. by intros ? [= ->].
    + apply Nat.ltb_ge in Hlt. repeat split; try done. lia.
  - repeat split; done.
Qed.

End StudyBuddyPageProps.

(** * Properties of the theme context *)

Module ThemeProps.

Import Theme.

Lemma apply_theme_in_sync (dark : bool) (env : Env) :
  theme_in_sync dark (apply_theme dark env).
Proof. by destruct dark. Qed.

Lemma mount_in_sync_reads (s : State) (env : Env) (dark : bool) :
  theme_in_sync dark env → isDark (mount s env).1 = dark.
Proof. intros [Hitem _]. unfold mount. rewrite Hitem. by destruct dark. Qed.

(** After the mount effect and after every [toggleDarkMode] the stored
    theme, the class of the document and the flag of the provider agree;
    toggling flips the flag, and toggling twice brings flag, storage and
    class back to where they were. *)
Theorem theme_stays_in_sync (s : State) (env : Env) :
  theme_in_sync (isDark (mount s env).1) (mount s env).2
  ∧ theme_in_sync (isDark (toggleDarkMode s env).1) (toggleDarkMode s env).2
  ∧ isDark (toggleDarkMode s env).1 = negb (isDark s)
  ∧ (theme_in_sync (isDark s) env →
     toggleDarkMode (toggleDarkMode s env).1 (toggleDarkMode s env).2
     = (s, env)).
Proof.
  split; [apply apply_theme_in_sync|].
  split; [apply apply_theme_in_sync|]. split; [done|].
  intros [Hitem Hclass]. destruct s as [dark m], env as [item cls pd].
  simpl in *. subst. by destruct dark.
Qed.

(** The choice of theme survives a reload: a mount that finds the storage
    as [toggleDarkMode] (or an earlier mount) left it restores the same
    flag, whatever the system preference is by then. *)
Theorem theme_survives_reload
    (s s0 : State) (env : Env) (cls pd : bool) :
  isDark
    (mount s0 {| theme_item := theme_item (toggleDarkMode s env).2;
                 dark_class := cls; prefers_dark := pd |}).1
  = isDark (toggleDarkMode s env).1
  ∧ isDark
      (mount s0 {| theme_item := theme_item (mount s env).2;
                   dark_class := cls; prefers_dark := pd |}).1
    = isDark (mount s env).1.
Proof.
  split.
  - unfold toggleDarkMode, mount. simpl. by destruct (isDark s).
  - unfold mount at 2 3. simpl.
    match goal with
    | |- context [apply_theme ?d env] => by destruct d
    end.
Qed.

(** On mount a stored theme decides alone: ["dark"] means dark and any
    other non-empty value means light, whatever the system prefers.  Only
    when nothing (or the empty string) is stored does the system preference
    decide.  In every case the mount writes ["dark"] or ["light"] back. *)
Theorem mount_prefers_the_stored_theme (s : State) (env : Env) :
  (∀ t, theme_item env = Some t → t ≠ "" →
     isDark (mount s env).1 = true ↔ t = "dark")
  ∧ (theme_item env = None ∨ theme_item env = Some "" →
     isDark (mount s env).1 = prefers_dark env)
  ∧ mounted (mount s env).1 = true
  ∧ (theme_item (mount s env).2 = Some "dark"
     ∨ theme_item (mount s env).2 = Some "light").
Proof.
  unfold mount. split; [|split; [|split; [done|]]].
  - intros t -> Hne. destruct t as [|c t]; [done|].
    change (String.eqb (String c t) "dark" = true ↔ String c t = "dark").
    apply String.eqb_eq.
  - by intros [-> | ->].
  - simpl. match goal with
    | |- context [apply_theme ?d env] => destruct d; [by left | by right]
    end.
Qed.

End ThemeProps.

(** * Properties of the history side bar *)

Module RightSidebarProps.

Import History RightSidebar.

Lemma featureMap_entries (p f : string) :
  featureMap !! p = Some f →
  (p, f) ∈ [("/chat", "chat");
            ("/study-buddy", "study-buddy");
            ("/polisher", "polisher");
            ("/personal-doctor", "personal-doctor");
            ("/fact-check", "fact-check");
            ("/knowledge-bases", "knowledge-bases")].
Proof.
  unfold featureMap. intros H. by apply elem_of_list_to_map_2 in H.
Qed.

Lemma featureMap_shape (p f : string) :
  featureMap !! p = Some f →
  Js.truthy f = true ∧ String.eqb f "home" = false
  ∧ String.eqb p "/" = false ∧ p = "/" +:+ f.
Proof.
  intros H%featureMap_entries.
  repeat (apply elem_of_cons in H as [[= -> ->] | H]; [by repeat split|]).
  by apply elem_of_nil in H.
Qed.

Lemma featureMap_inj (p1 p2 f : string) :
  featureMap !! p1 = Some f → featureMap !! p2 = Some f → p1 = p2.
Proof.
  intros (_ & _ & _ & ->)%featureMap_shape (_ & _ & _ & ->)%featureMap_shape.
  done.
Qed.

(** The side bar shows something exactly when the component is hydrated
    and the path is one of the six feature pages; it then lists the
    sessions stored under that page's feature, whose path is ["/"]
    followed by the feature.  On the home page and on unknown paths it
    shows nothing. *)
Theorem sidebar_lists_the_sessions_of_the_page
    (isHydrated : bool) (pathname : string) (histories : Histories) :
  (∀ f l, render isHydrated pathname histories = Some (f, l) ↔
     isHydrated = true ∧ featureMap !! pathname = Some f
     ∧ l = sessions f histories)
  ∧ (∀ f l, render isHydrated pathname histories = Some (f, l) →
       pathname = "/" +:+ f)
  ∧ render isHydrated "/" histories = None
  ∧ render true "/chat" histories = Some ("chat", sessions "chat" histories)
  ∧ render true "/study-buddy" histories
    = Some ("study-buddy", sessions "study-buddy" histories).
Proof.
  assert (Hiff : ∀ f l, render isHydrated pathname histories = Some (f, l) ↔
     isHydrated = true ∧ featureMap !! pathname = Some f
     ∧ l = sessions f histories).
  { intros f l. unfold render, currentHistories, currentFeature.
    destruct isHydrated; simpl; [|by split; [|intros [? _]]].
    destruct (featureMap !! pathname) as [g|] eqn:Hg;
      [|by split; [|intros (_ & ? & _)]].
    destruct (featureMap_shape _ _ Hg) as (-> & -> & -> & _). simpl.
    split.
    - by intros [= -> ->].
    - by intros (_ & [= ->] & ->). }
  split; [exact Hiff|]. split.
  - intros f l (_ & Hf & _)%Hiff.
    by destruct (featureMap_shape _ _ Hf) as (_ & _ & _ & ?).
  - split; [by destruct isHydrated|]. by split.
Qed.

(** The buttons of the side bar act on the page's own list only: after
    "clear all" the side bar of that page lists nothing, after "delete" it
    lists no record with the deleted id, and in both cases the side bar of
    every other page lists what it listed before. *)
Theorem sidebar_buttons_act_on_their_page_only
    (pathname other : string) (histories : Histories)
    (f : string) (l : list ChatHistory) (r : ChatHistory) :
  render true pathname histories = Some (f, l) →
  other ≠ pathname →
  render true pathname (clear_clicked f histories) = Some (f, [])
  ∧ render true other (clear_clicked f histories)
    = render true other histories
  ∧ render true pathname (delete_clicked f r histories)
    = Some (f, filter (λ x, id x ≠ id r) l)
  ∧ render true other (delete_clicked f r histories)
    = render true other histories.
Proof.
  intros Hrender Hother.
  assert (Hf : featureMap !! pathname = Some f ∧ l = sessions f histories).
  { revert Hrender. unfold render, currentHistories, currentFeature. simpl.
    destruct (featureMap !! pathname) as [g|] eqn:Hg; [|done].
    destruct (featureMap_shape _ _ Hg) as (-> & -> & -> & _). simpl.
    by intros [= -> ->]. }
  destruct Hf as [Hf ->].
  assert (Hshow : ∀ h, render true pathname h = Some (f, sessions f h)).
  { intros h. unfold render, currentHistories, currentFeature. simpl.
    rewrite Hf. by destruct (featureMap_shape _ _ Hf) as (-> & -> & -> & _). }
  assert (Hframe : ∀ h h', (∀ g, g ≠ f → sessions g h' = sessions g h) →
            render true other h' = render true other h).
  { intros h h' Hsame. unfold render, currentHistories, currentFeature.
    simpl. destruct (featureMap !! other) as [g|] eqn:Hg; [|done].
    destruct (featureMap_shape _ _ Hg) as (-> & -> & -> & _). simpl.
    rewrite Hsame; [done|]. intros ->. apply Hother.
    by eapply featureMap_inj. }
  rewrite !Hshow. unfold clear_clicked, delete_clicked, clearHistory.
  rewrite HistoryProps.sessions_insert_eq.
  rewrite HistoryOpsProps.sessions_delete_eq.
  split; [done|]. split.
  - apply Hframe. intros g Hg. by rewrite HistoryProps.sessions_insert_ne.
  - split; [done|]. apply Hframe. intros g Hg.
    by rewrite HistoryOpsProps.sessions_delete_ne.
Qed.

Lemma sidebar_buttons_witness :
  render true "/chat" Sample.full_store
  = Some ("chat", sessions "chat" Sample.full_store)
  ∧ "/study-buddy" ≠ "/chat"
  ∧ render true "/chat" (clear_clicked "chat" Sample.full_store)
    = Some ("chat", [])
  ∧ render true "/study-buddy" (clear_clicked "chat" Sample.full_store)
    = render true "/study-buddy" Sample.full_store.
Proof.
  assert (H : render true "/chat" Sample.full_store
              = Some ("chat", sessions "chat" Sample.full_store))
    by reflexivity.
  assert (Hne : "/study-buddy" ≠ "/chat") by discriminate.
  split; [exact H|]. split; [exact Hne|].
  destruct (sidebar_buttons_act_on_their_page_only "/chat" "/study-buddy"
              Sample.full_store "chat" _
              {| id := "1"; feature := "chat"; title := ""; timestamp := 1;
                 preview := ""; messages := [] |} H Hne)
    as (Hclear & Hframe & _).
  split; [exact Hclear | exact Hframe].
Defined.

End RightSidebarProps.
